(** * Kernel perceptron: a shallow embedding of [kernel_perceptron.py]

    The class [Kernel_perceptron] is embedded method by method.  NumPy
    arrays of [float64] are lists of primitive binary64 floats, so every
    comparison ([> 0], [<= 0], the stopping rule with its [+infinity]
    baseline) is the IEEE comparison the interpreter performs.  Python
    integers (class labels, sizes, indices) are [Z].  Exceptions are a
    sum type; a method is a function from the object to an outcome and
    the object it leaves behind, because a method that raises keeps the
    writes it has already made to [self.classifier].

    Conventions that are not visible in the source:
    - a sum of products ([np.dot]) is accumulated from index 0 upwards;
    - an integer is converted to [float64] exactly, which is what NumPy
      and Python do below 2^53;
    - labels and predictions are integers; the OvO branch of [predict]
      stores them in a float array, where they are the same numbers;
    - [np.power] and [np.exp], which [kernel_output] calls, have no
      binary64 definition here and are parameters of that method. *)

From Stdlib Require Import String.
From Stdlib Require Import List ZArith Lia Bool PeanoNat.
From Stdlib Require Import PrimFloat.
Import ListNotations.

Local Open Scope Z_scope.

(** ** Exceptions and outcomes *)

Inductive exn : Set :=
| IndexError
| ValueError
| ZeroDivisionError
| UnboundLocalError
| AttributeError
| TypeError.

Inductive result (A : Type) : Type :=
| Ok (a : A)
| Raise (e : exn).

Arguments Ok {A} a.
Arguments Raise {A} e.

Definition bindR {A B} (r : result A) (k : A -> result B) : result B :=
  match r with
  | Ok a => k a
  | Raise e => Raise e
  end.

Notation "x <~ r ;; k" := (bindR r (fun x => k))
  (at level 61, r at next level, right associativity).

Fixpoint mapR {A B} (f : A -> result B) (l : list A) : result (list B) :=
  match l with
  | [] => Ok []
  | a :: l' => b <~ f a ;; bs <~ mapR f l' ;; Ok (b :: bs)
  end.

(** ** Arrays *)

Definition vec := list float.

(** A two-dimensional array keeps its second dimension apart from its
    rows: [np.zeros((0, n))] has shape [(0, n)], and [np.dot] checks it. *)
Record matrix : Type := Matrix {
  n_cols : nat;
  m_rows : list vec
}.

Definition n_rows (M : matrix) : nat := length (m_rows M).

(** [a[i]] on a sequence of length [len]: a negative index counts from
    the end, anything outside [-len, len) is an [IndexError]. *)
Definition norm_index (len : nat) (i : Z) : result nat :=
  let n := Z.of_nat len in
  if (0 <=? i) && (i <? n) then Ok (Z.to_nat i)
  else if (- n <=? i) && (i <? 0) then Ok (Z.to_nat (i + n))
  else Raise IndexError.

Definition getitem {A} (l : list A) (i : Z) : result A :=
  k <~ norm_index (length l) i ;;
  match nth_error l k with
  | Some a => Ok a
  | None => Raise IndexError
  end.

Fixpoint set_nth {A} (l : list A) (k : nat) (a : A) : list A :=
  match l, k with
  | [], _ => []
  | _ :: l', O => a :: l'
  | x :: l', S k' => x :: set_nth l' k' a
  end.

(** [M[r, c]] as a read. *)
Definition mget (M : matrix) (r c : Z) : result float :=
  row <~ getitem (m_rows M) r ;;
  k <~ norm_index (n_cols M) c ;;
  match nth_error row k with
  | Some x => Ok x
  | None => Raise IndexError
  end.

(** [M[r, c] = f(M[r, c])], the in-place update behind [+=] and [-=]. *)
Definition mupdate (M : matrix) (r c : Z) (f : float -> float) : result matrix :=
  i <~ norm_index (n_rows M) r ;;
  k <~ norm_index (n_cols M) c ;;
  match nth_error (m_rows M) i with
  | Some row =>
      match nth_error row k with
      | Some x => Ok (Matrix (n_cols M) (set_nth (m_rows M) i (set_nth row k (f x))))
      | None => Raise IndexError
      end
  | None => Raise IndexError
  end.

Fixpoint pos_to_float (p : positive) : float :=
  match p with
  | xH => 1%float
  | xO q => (2 * pos_to_float q)%float
  | xI q => (2 * pos_to_float q + 1)%float
  end.

Definition Z_to_float (z : Z) : float :=
  match z with
  | Z0 => 0%float
  | Zpos p => pos_to_float p
  | Zneg p => (- pos_to_float p)%float
  end.

(** [np.zeros(shape)]: a negative dimension is a [ValueError]. *)
Definition np_zeros1 (n : Z) : result vec :=
  if n <? 0 then Raise ValueError else Ok (repeat 0%float (Z.to_nat n)).

Definition zeros (r c : nat) : matrix :=
  Matrix c (repeat (repeat 0%float c) r).

Definition np_zeros (r c : Z) : result matrix :=
  if (r <? 0) || (c <? 0) then Raise ValueError
  else Ok (zeros (Z.to_nat r) (Z.to_nat c)).

Definition vdot (u v : vec) : float :=
  fold_left (fun acc p => (acc + fst p * snd p)%float) (combine u v) 0%float.

Definition column (M : matrix) (j : nat) : vec :=
  map (fun row => nth j row 0%float) (m_rows M).

Definition np_transpose (M : matrix) : matrix :=
  Matrix (n_rows M) (map (column M) (seq 0 (n_cols M))).

(** [np.dot(W, v)] for a matrix and a one-dimensional array. *)
Definition np_dot_mv (W : matrix) (v : vec) : result vec :=
  if Nat.eqb (n_cols W) (length v)
  then Ok (map (fun w => vdot w v) (m_rows W))
  else Raise ValueError.

(** [np.dot(W, K)] for two matrices. *)
Definition np_dot_mm (W K : matrix) : result matrix :=
  if Nat.eqb (n_cols W) (n_rows K)
  then Ok (Matrix (n_cols K)
             (map (fun w => map (fun j => vdot w (column K j)) (seq 0 (n_cols K)))
                  (m_rows W)))
  else Raise ValueError.

(** [np.argmax] on one-dimensional data: the first maximum, and the
    first NaN if there is one. *)
Fixpoint argmax_from (mp : float) (best i : nat) (xs : vec) : nat :=
  match xs with
  | [] => best
  | x :: xs' =>
      if (x <=? mp)%float then argmax_from mp best (S i) xs'
      else if is_nan x then i
      else argmax_from x i (S i) xs'
  end.

Definition np_argmax (xs : vec) : result Z :=
  match xs with
  | [] => Raise ValueError
  | x :: xs' => Ok (Z.of_nat (if is_nan x then O else argmax_from x 0 1 xs'))
  end.

(** [np.argmax(C, axis=0)]: one index per column. *)
Definition np_argmax_axis0 (C : matrix) : result (list Z) :=
  match m_rows C with
  | [] => Raise ValueError
  | _ => mapR (fun j => np_argmax (column C j)) (seq 0 (n_cols C))
  end.

(** [A[rows[:, None], cols]]: the block of [A] at the given rows and
    columns. *)
Definition take_block (A : matrix) (rows cols : list Z) : result matrix :=
  rs <~ mapR (fun r => mapR (fun c => mget A r c) cols) rows ;;
  Ok (Matrix (length cols) rs).

(** [range(n)] and [range(a, b)]. *)
Definition range2 (a b : Z) : list Z :=
  map (fun k => a + Z.of_nat k) (seq 0 (Z.to_nat (b - a))).

Definition range (n : Z) : list Z := range2 0 n.

Definition enumerate {A} (l : list A) : list (Z * A) :=
  combine (range (Z.of_nat (length l))) l.

Fixpoint foldR {A S} (f : S -> A -> result S) (l : list A) (s : S) : result S :=
  match l with
  | [] => Ok s
  | a :: l' => s' <~ f s a ;; foldR f l' s'
  end.

(** [v[i] = f(v[i])] on a one-dimensional array. *)
Definition vupdate (v : vec) (i : Z) (f : float -> float) : result vec :=
  k <~ norm_index (length v) i ;;
  match nth_error v k with
  | Some x => Ok (set_nth v k (f x))
  | None => Raise IndexError
  end.

(** [np.unique(l, return_counts=True)]: the sorted distinct values and
    how often each occurs. *)
Fixpoint count_insert (y : Z) (acc : list (Z * Z)) : list (Z * Z) :=
  match acc with
  | [] => [(y, 1)]
  | (v, c) :: acc' =>
      if y <? v then (y, 1) :: acc
      else if y =? v then (v, c + 1) :: acc'
      else (v, c) :: count_insert y acc'
  end.

Definition np_unique_counts (l : list Z) : list Z * list Z :=
  split (fold_left (fun acc y => count_insert y acc) l []).

(** [np.divide(A, v)] for a matrix and a one-dimensional array: [v] is
    broadcast along the last axis, so entry [(i, j)] is divided by
    [v[j]]. *)
Definition np_divide (A : matrix) (v : vec) : result matrix :=
  if Nat.eqb (n_cols A) (length v)
  then Ok (Matrix (n_cols A)
             (map (fun row => map (fun p => (fst p / snd p)%float) (combine row v))
                  (m_rows A)))
  else if Nat.eqb (length v) 1
  then Ok (Matrix (n_cols A)
             (map (fun row => map (fun x => (x / hd 0 v)%float) row) (m_rows A)))
  else if Nat.eqb (n_cols A) 1
  then Ok (Matrix (length v)
             (map (fun row => map (fun c => (hd 0 row / c)%float) v) (m_rows A)))
  else Raise ValueError.

(** ** The object *)

Record LabelledDataset : Type := {
  data : list vec;
  labels : list Z;
  size : Z
}.

(** The attributes of a [Kernel_perceptron].  [classifier] and
    [OvO_indices] exist only when the constructor reached the branch that
    assigns them; [kernel_func] is read by [kernel_output] and assigned
    nowhere in the class.  [triggered] is a ghost field: no method reads
    it, and it records the index of the training example at every
    [mistakes += 1]. *)
Record Kernel_perceptron : Type := {
  dataset : LabelledDataset;
  test_set : LabelledDataset;
  nclasses : Z;
  kernel_mtx : matrix;
  train_indices : list Z;
  test_indices : list Z;
  kernel_param : float;
  classification_method : string;
  classifier : option matrix;
  OvO_indices : option (list (Z * Z));
  kernel_func : option string;
  triggered : list Z
}.

Definition with_classifier (W : matrix) (self : Kernel_perceptron) : Kernel_perceptron :=
  {| dataset := dataset self; test_set := test_set self; nclasses := nclasses self;
     kernel_mtx := kernel_mtx self; train_indices := train_indices self;
     test_indices := test_indices self; kernel_param := kernel_param self;
     classification_method := classification_method self;
     classifier := Some W; OvO_indices := OvO_indices self;
     kernel_func := kernel_func self; triggered := triggered self |}.

Definition with_triggered (t : list Z) (self : Kernel_perceptron) : Kernel_perceptron :=
  {| dataset := dataset self; test_set := test_set self; nclasses := nclasses self;
     kernel_mtx := kernel_mtx self; train_indices := train_indices self;
     test_indices := test_indices self; kernel_param := kernel_param self;
     classification_method := classification_method self;
     classifier := classifier self; OvO_indices := OvO_indices self;
     kernel_func := kernel_func self; triggered := t |}.

(** ** Methods as state transformers *)

Definition M (A : Type) : Type := Kernel_perceptron -> result A * Kernel_perceptron.

Definition ret {A} (a : A) : M A := fun self => (Ok a, self).

Definition raise {A} (e : exn) : M A := fun self => (Raise e, self).

Definition bind {A B} (m : M A) (k : A -> M B) : M B :=
  fun self =>
    match m self with
    | (Ok a, self') => k a self'
    | (Raise e, self') => (Raise e, self')
    end.

Notation "x <- m ;; k" := (bind m (fun x => k))
  (at level 61, m at next level, right associativity).

Definition lift {A} (r : result A) : M A := fun self => (r, self).

Definition get_self : M Kernel_perceptron := fun self => (Ok self, self).

Definition attr {A} (a : option A) : result A :=
  match a with
  | Some x => Ok x
  | None => Raise AttributeError
  end.

Fixpoint for_each {A S} (body : S -> A -> M S) (l : list A) (s : S) : M S :=
  match l with
  | [] => ret s
  | a :: l' => s' <- body s a ;; for_each body l' s'
  end.

(** [self.classifier[r, c] = f(self.classifier[r, c])]. *)
Definition classifier_update (r c : Z) (f : float -> float) : M unit :=
  fun self =>
    match W <~ attr (classifier self) ;; mupdate W r c f with
    | Ok W' => (Ok tt, with_classifier W' self)
    | Raise e => (Raise e, self)
    end.

(** [mistakes += 1] while example [data_idx] is being processed. *)
Definition count_mistake (data_idx mistakes : Z) : M Z :=
  fun self => (Ok (mistakes + 1), with_triggered (data_idx :: triggered self) self).

(** ** [__init__] *)

(** The two nested loops that fill [self.OvO_indices]. *)
Definition build_OvO_indices (k : Z) : list (Z * Z) :=
  fold_left
    (fun acc idx1 =>
       fold_left (fun acc' idx2 => acc' ++ [(idx1, idx2)])
                 (range2 (idx1 + 1) k) acc)
    (range (k - 1)) [].

(** The constructor.  [train_indices] is stored as a column
    ([reshape(1,-1)] then transpose); a list stands for it in either
    orientation, and [take_block] pairs it with the row of column
    indices the way broadcasting does. *)
Definition __init__ (dataset test_set : LabelledDataset)
    (train_indices test_indices : list Z) (nclasses : Z)
    (kernel_mtx : matrix) (kernel_param : float)
    (classification_method : string) : result Kernel_perceptron :=
  let self :=
    {| dataset := dataset; test_set := test_set; nclasses := nclasses;
       kernel_mtx := kernel_mtx; train_indices := train_indices;
       test_indices := test_indices; kernel_param := kernel_param;
       classification_method := classification_method;
       classifier := None; OvO_indices := None;
       kernel_func := None; triggered := [] |} in
  if String.eqb classification_method "OvA" then
    W <~ np_zeros nclasses (size dataset) ;;
    Ok (with_classifier W self)
  else if String.eqb classification_method "OvO" then
    let k := nclasses in
    W <~ np_zeros (k * (k - 1) / 2) (size dataset) ;;
    Ok {| dataset := dataset; test_set := test_set; nclasses := nclasses;
          kernel_mtx := kernel_mtx; train_indices := train_indices;
          test_indices := test_indices; kernel_param := kernel_param;
          classification_method := classification_method;
          classifier := Some W;
          OvO_indices := Some (build_OvO_indices nclasses);
          kernel_func := None; triggered := [] |}
  else Ok self.

(** ** [predict] *)

(** What [predict] returns: an array of labels, or [None] when neither
    branch of the method switch is taken. *)
Inductive decisions : Type :=
| Decisions (l : list Z)
| PyNone.

(** One pass of the inner loop of the OvO branch: pair [class_idx] votes
    for its first class on positive confidence, else for its second. *)
Definition ovo_vote (this_confidence : vec) (OvO_classifier : vec)
    (p : Z * (Z * Z)) : result vec :=
  let '(class_idx, OvO_index) := p in
  c <~ getitem this_confidence class_idx ;;
  if (0 <? c)%float
  then vupdate OvO_classifier (fst OvO_index) (fun x => (x + 1)%float)
  else vupdate OvO_classifier (snd OvO_index) (fun x => (x + 1)%float).

Definition ovo_decide (self : Kernel_perceptron) (this_confidence : vec) : result Z :=
  OvO_classifier <~ np_zeros1 (nclasses self) ;;
  pairs <~ attr (OvO_indices self) ;;
  tally <~ foldR (ovo_vote this_confidence) (enumerate pairs) OvO_classifier ;;
  np_argmax tally.

Definition predict (test_points : list vec) : M decisions :=
  self <- get_self ;;
  K <- lift (take_block (kernel_mtx self) (train_indices self) (test_indices self)) ;;
  W <- lift (attr (classifier self)) ;;
  confidence <- lift (np_dot_mm W K) ;;
  if String.eqb (classification_method self) "OvA" then
    ds <- lift (np_argmax_axis0 confidence) ;;
    ret (Decisions ds)
  else if String.eqb (classification_method self) "OvO" then
    let confidence := np_transpose confidence in
    ds <- lift (mapR (ovo_decide self) (m_rows confidence)) ;;
    ret (Decisions ds)
  else ret PyNone.

(** ** [test_error] *)

(** [predictions != labels], elementwise with broadcasting of a
    one-element operand; [None != labels] is true at every position. *)
Definition np_not_equal (predictions : decisions) (labels : list Z) : result (list bool) :=
  match predictions with
  | PyNone => Ok (map (fun _ => true) labels)
  | Decisions p =>
      if Nat.eqb (length p) (length labels)
      then Ok (map (fun q => negb (fst q =? snd q)) (combine p labels))
      else if Nat.eqb (length labels) 1
      then Ok (map (fun x => negb (x =? hd 0 labels)) p)
      else if Nat.eqb (length p) 1
      then Ok (map (fun y => negb (hd 0 p =? y)) labels)
      else Raise ValueError
  end.

Definition np_sum (bs : list bool) : Z :=
  fold_left (fun n (b : bool) => if b then n + 1 else n) bs 0.

Definition test_error : M float :=
  self <- get_self ;;
  predictions <- predict (data (test_set self)) ;;
  neq <- lift (np_not_equal predictions (labels (test_set self))) ;;
  let mistakes := np_sum neq in
  ret (Z_to_float mistakes / Z_to_float (size (test_set self)))%float.

(** ** [train] *)

(** The body of [for this_class in range(self.nclasses)]. *)
Definition ova_class (confidence : vec) (data_idx : Z) (mistakes this_class : Z) : M Z :=
  self <- get_self ;;
  c <- lift (getitem confidence this_class) ;;
  false_positive <-
    (if (0 <? c)%float
     then l <- lift (getitem (labels (dataset self)) data_idx) ;;
          ret (negb (this_class =? l))
     else ret false) ;;
  if false_positive then
    mistakes <- count_mistake data_idx mistakes ;;
    _ <- classifier_update this_class data_idx (fun w => (w - 1)%float) ;;
    ret mistakes
  else
    false_negative <-
      (if (c <=? 0)%float
       then l <- lift (getitem (labels (dataset self)) data_idx) ;;
            ret (this_class =? l)
       else ret false) ;;
    if false_negative then
      mistakes <- count_mistake data_idx mistakes ;;
      _ <- classifier_update this_class data_idx (fun w => (w + 1)%float) ;;
      ret mistakes
    else ret mistakes.

(** The body of [for class_idx, this_pair in enumerate(self.OvO_indices)]. *)
Definition ovo_pair (confidence : vec) (data_idx : Z) (mistakes : Z)
    (p : Z * (Z * Z)) : M Z :=
  let '(class_idx, this_pair) := p in
  self <- get_self ;;
  l <- lift (getitem (labels (dataset self)) data_idx) ;;
  first_loses <-
    (if fst this_pair =? l
     then c <- lift (getitem confidence class_idx) ;; ret (c <=? 0)%float
     else ret false) ;;
  mistakes <-
    (if first_loses : bool then
       mistakes <- count_mistake data_idx mistakes ;;
       _ <- classifier_update class_idx data_idx (fun w => (w + 1)%float) ;;
       ret mistakes
     else ret mistakes) ;;
  l <- lift (getitem (labels (dataset self)) data_idx) ;;
  second_loses <-
    (if snd this_pair =? l
     then c <- lift (getitem confidence class_idx) ;; ret (0 <? c)%float
     else ret false) ;;
  if second_loses : bool then
    mistakes <- count_mistake data_idx mistakes ;;
    _ <- classifier_update class_idx data_idx (fun w => (w - 1)%float) ;;
    ret mistakes
  else ret mistakes.

(** The body of [for data_idx, data_point in enumerate(self.dataset.data)]. *)
Definition train_example (K : matrix) (mistakes : Z) (p : Z * vec) : M Z :=
  let '(data_idx, data_point) := p in
  self <- get_self ;;
  W <- lift (attr (classifier self)) ;;
  k <- lift (getitem (m_rows K) data_idx) ;;
  confidence <- lift (np_dot_mv W k) ;;
  if String.eqb (classification_method self) "OvA" then
    for_each (ova_class confidence data_idx) (range (nclasses self)) mistakes
  else if String.eqb (classification_method self) "OvO" then
    pairs <- lift (attr (OvO_indices self)) ;;
    for_each (ovo_pair confidence data_idx) (enumerate pairs) mistakes
  else ret mistakes.

(** [mistakes / size] on two Python integers. *)
Definition py_truediv (a b : Z) : result float :=
  if b =? 0 then Raise ZeroDivisionError
  else Ok (Z_to_float a / Z_to_float b)%float.

(** One turn of [for epoch in range(max_epochs)], up to the two errors. *)
Definition epoch (K : matrix) : M (float * float) :=
  self <- get_self ;;
  mistakes <- for_each (train_example K) (enumerate (data (dataset self))) 0 ;;
  train_error <- lift (py_truediv mistakes (size (dataset self))) ;;
  test_error <- test_error ;;
  ret (train_error, test_error).

(** The epoch loop.  [train_error] is [None] until an epoch has assigned
    the local variable; the final [return train_error] reads it. *)
Fixpoint train_loop (epochs : nat) (K : matrix) (epsilon : float)
    (prev_train_error prev_test_error : float) (train_error : option float) : M float :=
  match epochs with
  | O =>
      match train_error with
      | Some e => ret e
      | None => raise UnboundLocalError
      end
  | S epochs' =>
      errs <- epoch K ;;
      let '(train_error, test_error) := errs in
      if ((prev_train_error - train_error <? epsilon)
          || (prev_test_error + 1e3 * epsilon <? test_error))%float
      then ret train_error
      else train_loop epochs' K epsilon train_error test_error (Some train_error)
  end.

Definition train (max_epochs : Z) (epsilon : float) : M float :=
  self <- get_self ;;
  K <- lift (take_block (kernel_mtx self) (train_indices self) (train_indices self)) ;;
  train_loop (Z.to_nat max_epochs) K epsilon infinity infinity None.

(** ** [confusion_matrix] and [count_mistake_vec] *)

(** [enumerate(predictions)]: [None] is not iterable. *)
Definition iterate (predictions : decisions) : result (list (Z * Z)) :=
  match predictions with
  | Decisions p => Ok (enumerate p)
  | PyNone => Raise TypeError
  end.

(** Everything [confusion_matrix] does before its [return]: the raw
    error counts and the label frequencies. *)
Definition confusion_counts : M (matrix * list Z) :=
  self <- get_self ;;
  let '(uniq_vals, counts) := np_unique_counts (labels (test_set self)) in
  conf_mtx <- lift (np_zeros (nclasses self) (nclasses self)) ;;
  predictions <- predict (data (test_set self)) ;;
  preds <- lift (iterate predictions) ;;
  conf_mtx <- lift (foldR (fun conf_mtx (q : Z * Z) =>
                             let '(idx, pred) := q in
                             y <~ getitem (labels (test_set self)) idx ;;
                             if negb (pred =? y)
                             then mupdate conf_mtx y pred (fun x => (x + 1)%float)
                             else Ok conf_mtx)
                          preds conf_mtx) ;;
  ret (conf_mtx, counts).

Definition confusion_matrix : M matrix :=
  p <- confusion_counts ;;
  let '(conf_mtx, counts) := p in
  lift (np_divide conf_mtx (map Z_to_float counts)).

Definition count_mistake_vec : M vec :=
  self <- get_self ;;
  let mistake_vec := repeat 0%float (n_rows (kernel_mtx self)) in
  predictions <- predict (data (test_set self)) ;;
  preds <- lift (iterate predictions) ;;
  lift (foldR (fun mistake_vec (q : Z * Z) =>
                 let '(idx, pred) := q in
                 y <~ getitem (labels (test_set self)) idx ;;
                 if negb (pred =? y)
                 then t <~ getitem (test_indices self) idx ;;
                      vupdate mistake_vec t (fun x => (x + 1)%float)
                 else Ok mistake_vec)
              preds mistake_vec).

(** ** [kernel_output] *)

(** What [kernel_output] returns: a matrix, or [None] when it falls off
    the end of its body. *)
Inductive kernel_value : Type :=
| KArray (A : matrix)
| KNone.

Definition matrix_map (f : float -> float) (A : matrix) : matrix :=
  Matrix (n_cols A) (map (map f) (m_rows A)).

Section KernelOutput.

(** The scalar functions of the C library behind [np.power] and
    [np.exp]; binary64 has no Rocq definition of them. *)
Variable np_power : float -> float -> float.
Variable np_exp : float -> float.

(** [cdist(x1, x2, 'euclidean')]. *)
Definition cdist (x1 x2 : matrix) : result matrix :=
  if Nat.eqb (n_cols x1) (n_cols x2)
  then Ok (Matrix (n_rows x2)
             (map (fun u =>
                     map (fun v =>
                            sqrt (fold_left
                                    (fun acc p => (acc + (fst p - snd p) * (fst p - snd p))%float)
                                    (combine u v) 0%float))
                         (m_rows x2))
                  (m_rows x1)))
  else Raise ValueError.

Definition kernel_output (x1 x2 : matrix) : M kernel_value :=
  self <- get_self ;;
  kf <- lift (attr (kernel_func self)) ;;
  if String.eqb kf "polynomial" then
    d <- lift (np_dot_mm x1 (np_transpose x2)) ;;
    ret (KArray (matrix_map (fun x => np_power x (kernel_param self)) d))
  else
    kf <- lift (attr (kernel_func self)) ;;
    if String.eqb kf "Gaussian" then
      xdist <- lift (cdist x1 x2) ;;
      ret (KArray (matrix_map
                     (fun x => np_exp (- kernel_param self * np_power x 2)%float)
                     xdist))
    else ret KNone.

End KernelOutput.

(** ** Specification-side definitions *)

(** The Pair Index as the specification words it: for [a] from [0] to
    [k-2] and, for each [a], [b] from [a+1] to [k-1], the pair [(a, b)]. *)
Definition pair_index_spec (k : Z) : list (Z * Z) :=
  flat_map (fun a => map (fun b => (a, b)) (range2 (a + 1) k)) (range (k - 1)).

(** Every row has the length the shape announces. *)
Definition wf_matrix (A : matrix) : Prop :=
  Forall (fun row => length row = n_cols A) (m_rows A).

(** Squared Euclidean distance of two points, summed from index 0. *)
Definition sqdist (u v : vec) : float :=
  fold_left (fun acc p => (acc + (fst p - snd p) * (fst p - snd p))%float)
            (combine u v) 0%float.

(** The normalisation the specification describes: row [y] divided by
    the number of test examples whose true label is [y]. *)
Definition row_normalised (conf_mtx : matrix) (counts : list Z) : matrix :=
  Matrix (n_cols conf_mtx)
         (map (fun p => map (fun x => (x / Z_to_float (snd p))%float) (fst p))
              (combine (m_rows conf_mtx) counts)).

(** An object on which [predict] has everything it reads: the kernel
    block exists, the weight matrix has one column per training index,
    and either (OvA) one row per class, with at least one class, or (OvO)
    a pair index over [0..nclasses-1] with a weight row for every pair. *)
Definition predict_ready (self : Kernel_perceptron) : Prop :=
  exists K W,
    take_block (kernel_mtx self) (train_indices self) (test_indices self) = Ok K
    /\ classifier self = Some W
    /\ n_cols W = n_rows K
    /\ ((classification_method self = "OvA"%string
         /\ 0 < nclasses self /\ Z.of_nat (n_rows W) = nclasses self)
        \/ (classification_method self = "OvO"%string
            /\ 0 < nclasses self
            /\ exists pairs,
                 OvO_indices self = Some pairs
                 /\ (length pairs <= n_rows W)%nat
                 /\ forall a b, In (a, b) pairs ->
                                0 <= a < nclasses self /\ 0 <= b < nclasses self)).

(** In OvA mode the weight matrix has one row per class. *)
Definition ova_rows (self : Kernel_perceptron) : Prop :=
  forall W, classification_method self = "OvA"%string ->
            classifier self = Some W ->
            Z.of_nat (n_rows W) = nclasses self.

(** A method whose every run relates the object it starts from to the
    object it leaves, whether it returns or raises. *)
Definition stable {A} (R : Kernel_perceptron -> Kernel_perceptron -> Prop) (m : M A) : Prop :=
  forall self, R self (snd (m self)).

(** A method that leaves the object as it found it, whatever it returns. *)
Definition readonly {A} (m : M A) : Prop := stable eq m.

(** The weight at row [r], column [c], when there is one. *)
Definition weight (W : matrix) (r c : nat) : option float :=
  match nth_error (m_rows W) r with
  | Some row => nth_error row c
  | None => None
  end.

(** Every weight other than [0.0] sits in the column of a training
    example at which [mistakes] was incremented. *)
Definition nonzero_triggered (self : Kernel_perceptron) : Prop :=
  forall W r c x,
    classifier self = Some W -> weight W r c = Some x -> x <> 0%float ->
    In (Z.of_nat c) (triggered self).

(** Two objects whose weight matrices have the same shape and agree
    outside column [j]. *)
Definition same_off_column (j : Z) (self self' : Kernel_perceptron) : Prop :=
  match classifier self, classifier self' with
  | Some W, Some W' =>
      n_cols W' = n_cols W /\ n_rows W' = n_rows W
      /\ forall r c, Z.of_nat c <> j -> weight W' r c = weight W r c
  | None, None => True
  | _, _ => False
  end.

(** Two objects whose weight matrices have the same shape, the second
    one regular if the first one is. *)
Definition same_shape (self self' : Kernel_perceptron) : Prop :=
  match classifier self, classifier self' with
  | Some W, Some W' =>
      n_cols W' = n_cols W /\ n_rows W' = n_rows W
      /\ (wf_matrix W -> wf_matrix W')
  | None, None => True
  | _, _ => False
  end.

(** The mistake rules in the specification's words: what happens to the
    weight of class [c] (OvA), or of the pair [(a, b)] (OvO), for an
    example of true label [l] at confidence [x]. *)
Definition ova_rule (x : float) (c l : Z) : option (float -> float) :=
  if (0 <? x)%float && negb (c =? l) then Some (fun w => (w - 1)%float)
  else if (x <=? 0)%float && (c =? l) then Some (fun w => (w + 1)%float)
  else None.

Definition ovo_rule (x : float) (a b l : Z) : option (float -> float) :=
  if (a =? l) && (x <=? 0)%float then Some (fun w => (w + 1)%float)
  else if (b =? l) && (0 <? x)%float then Some (fun w => (w - 1)%float)
  else None.

(** The two statements every mistake branch of [train] consists of:
    [mistakes += 1] and the write into column [data_idx]. *)
Definition mistake_update (data_idx mistakes r : Z) (f : float -> float) : M Z :=
  mistakes <- count_mistake data_idx mistakes ;;
  _ <- classifier_update r data_idx f ;;
  ret mistakes.

(** A run that keeps the invariant [nonzero_triggered]. *)
Definition keeps_nonzero_triggered (self self' : Kernel_perceptron) : Prop :=
  nonzero_triggered self -> nonzero_triggered self'.

Definition fires {A} (rule : A -> option (float -> float)) (a : A) : bool :=
  match rule a with
  | Some _ => true
  | None => false
  end.

(** How many of the decision functions in [items] make a mistake. *)
Definition count_fires {A} (rule : A -> option (float -> float)) (items : list A) : Z :=
  Z.of_nat (length (filter (fires rule) items)).

(** Every turn of a loop [body] over [items] is a mistake with its write
    into row [row_of a], or nothing, as [rule a] says. *)
Definition turn_spec {A} (body : Z -> A -> M Z) (row_of : A -> Z)
    (rule : A -> option (float -> float)) (data_idx : Z) (ds : LabelledDataset)
    (items : list A) : Prop :=
  forall mistakes a self,
    In a items -> dataset self = ds ->
    body mistakes a self
    = match rule a with
      | Some f => mistake_update data_idx mistakes (row_of a) f self
      | None => (Ok mistakes, self)
      end.

(** The rule of class [c], or of pair [p], read off the confidence
    vector; a class without a confidence makes no mistake. *)
Definition ova_rule_at (confidence : vec) (l c : Z) : option (float -> float) :=
  match getitem confidence c with
  | Ok x => ova_rule x c l
  | Raise _ => None
  end.

Definition ovo_rule_at (confidence : vec) (l : Z) (p : Z * (Z * Z)) : option (float -> float) :=
  match getitem confidence (fst p) with
  | Ok x => ovo_rule x (fst (snd p)) (snd (snd p)) l
  | Raise _ => None
  end.

(** The object after [mistakes += 1; self.classifier[r, idx] = f(...)]
    for example [idx], when the write is in range. *)
Definition bump (r idx : Z) (f : float -> float) (self : Kernel_perceptron) : Kernel_perceptron :=
  match W <~ attr (classifier self) ;; mupdate W r idx f with
  | Ok W' => with_classifier W' (with_triggered (idx :: triggered self) self)
  | Raise _ => with_triggered (idx :: triggered self) self
  end.

(** The stopping rule in the specification's words.  [train_spec K eps n
    prev_train prev_test last self out] reads: with [n] epochs left, the
    previous epoch's errors [prev_train] and [prev_test], and [last] the
    [train_error] computed so far, training from [self] ends in [out].
    After each epoch it stops and returns the epoch's [train_error] if
    [prev_train - train_error < eps] or [test_error > prev_test + 1000 *
    eps]; otherwise the new errors become the baseline; when no epoch is
    left it returns the last [train_error].  An epoch that raises ends
    training with that exception. *)
Inductive train_spec (K : matrix) (eps : float) :
  nat -> float -> float -> option float -> Kernel_perceptron ->
  result float * Kernel_perceptron -> Prop :=
| train_spec_stop n prev_train prev_test last self train_error test_error self1 :
    epoch K self = (Ok (train_error, test_error), self1) ->
    (prev_train - train_error <? eps)%float = true
    \/ (prev_test + 1000 * eps <? test_error)%float = true ->
    train_spec K eps (S n) prev_train prev_test last self (Ok train_error, self1)
| train_spec_continue n prev_train prev_test last self train_error test_error self1 out :
    epoch K self = (Ok (train_error, test_error), self1) ->
    (prev_train - train_error <? eps)%float = false ->
    (prev_test + 1000 * eps <? test_error)%float = false ->
    train_spec K eps n train_error test_error (Some train_error) self1 out ->
    train_spec K eps (S n) prev_train prev_test last self out
| train_spec_exhausted prev_train prev_test train_error self :
    train_spec K eps O prev_train prev_test (Some train_error) self (Ok train_error, self)
| train_spec_raises n prev_train prev_test last self e self1 :
    epoch K self = (Raise e, self1) ->
    train_spec K eps (S n) prev_train prev_test last self (Raise e, self1).

(** ** Example objects *)

Module Example.

Definition km : matrix :=
  Matrix 5 [[1; 1; -1; -1; 1]; [1; 1; 0; 0; 0]; [-1; 0; 1; 0; 0];
            [-1; 0; 0; 1; 0]; [1; 0; 0; 0; 1]]%float.

Definition train_set : LabelledDataset :=
  {| data := [[1%float]]; labels := [1]; size := 1 |}.

Definition held_out : LabelledDataset :=
  {| data := [[1]; [2]; [3]; [4]]%float; labels := [0; 0; 0; 1]; size := 4 |}.

(** The object before construction has assigned anything. *)
Definition blank (method : string) (k : Z) : Kernel_perceptron :=
  {| dataset := train_set; test_set := held_out; nclasses := k;
     kernel_mtx := km; train_indices := [0]; test_indices := [1; 2; 3; 4];
     kernel_param := 1%float; classification_method := method;
     classifier := None; OvO_indices := None; kernel_func := None;
     triggered := [] |}.

Definition construct (method : string) (k : Z) : Kernel_perceptron :=
  match __init__ train_set held_out [0] [1; 2; 3; 4] k km 1%float method with
  | Ok self => self
  | Raise _ => blank method k
  end.

Definition ova : Kernel_perceptron := construct "OvA" 2.

Definition ovo : Kernel_perceptron := construct "OvO" 3.

(** The same objects after [train(5, 1e-5)]. *)
Definition ova_trained : Kernel_perceptron :=
  snd (train 5 0x1.4f8b588e368f1p-17%float ova).

Definition ovo_trained : Kernel_perceptron :=
  snd (train 5 0x1.4f8b588e368f1p-17%float ovo).

(** An object on which a caller has set [kernel_func] by hand. *)
Definition with_kernel_func (kf : string) : Kernel_perceptron :=
  {| dataset := train_set; test_set := held_out; nclasses := 2;
     kernel_mtx := km; train_indices := [0]; test_indices := [1; 2; 3; 4];
     kernel_param := 2%float; classification_method := "OvA";
     classifier := Some (zeros 2 1); OvO_indices := None;
     kernel_func := Some kf; triggered := [] |}.

Definition x1 : matrix := Matrix 2 [[1; 2]; [3; 4]]%float.
Definition x2 : matrix := Matrix 2 [[1; 0]; [0; 1]; [1; 1]]%float.

End Example.

(** ** Further specification-side definitions *)

(** Two objects that agree on every attribute other than the weights. *)
Definition same_attributes (self self' : Kernel_perceptron) : Prop :=
  dataset self' = dataset self
  /\ test_set self' = test_set self
  /\ nclasses self' = nclasses self
  /\ kernel_mtx self' = kernel_mtx self
  /\ train_indices self' = train_indices self
  /\ test_indices self' = test_indices self
  /\ kernel_param self' = kernel_param self
  /\ classification_method self' = classification_method self
  /\ OvO_indices self' = OvO_indices self
  /\ kernel_func self' = kernel_func self.

(** An entry of a one-dimensional array other than [0.0] lies at a
    position some test index refers to. *)
Definition supported_by (indices : list Z) (v : vec) : Prop :=
  forall j x, nth_error v j = Some x -> x <> 0%float ->
              exists t, In t indices /\ norm_index (length v) t = Ok j.

Module Edge.

(** A training set without points. *)
Definition no_points : LabelledDataset :=
  {| data := []; labels := []; size := 0 |}.

Definition empty_training : Kernel_perceptron :=
  match __init__ no_points Example.held_out [] [1; 2; 3; 4] 2 Example.km 1%float "OvA" with
  | Ok self => self
  | Raise _ => Example.blank "OvA" 2
  end.

(** A training set that announces two points and has one kernel index. *)
Definition two_announced : LabelledDataset :=
  {| data := [[1%float]]; labels := [1]; size := 2 |}.

Definition mismatched : Kernel_perceptron :=
  match __init__ two_announced Example.held_out [0] [1; 2; 3; 4] 2 Example.km 1%float "OvA" with
  | Ok self => self
  | Raise _ => Example.blank "OvA" 2
  end.

(** An object built with a method the constructor does not know. *)
Definition one_vs_rest : Kernel_perceptron :=
  match __init__ Example.train_set Example.held_out [0] [1; 2; 3; 4] 2 Example.km 1%float "OvR" with
  | Ok self => self
  | Raise _ => Example.blank "OvR" 2
  end.

(** A training index outside the 5 x 5 kernel matrix. *)
Definition out_of_range : Kernel_perceptron :=
  match __init__ Example.train_set Example.held_out [7] [1; 2; 3; 4] 2 Example.km 1%float "OvA" with
  | Ok self => self
  | Raise _ => Example.blank "OvA" 2
  end.

(** No held-out points at all. *)
Definition no_test : Kernel_perceptron :=
  match __init__ Example.train_set no_points [0] [] 2 Example.km 1%float "OvA" with
  | Ok self => self
  | Raise _ => Example.blank "OvA" 2
  end.

End Edge.

(** * Properties *)

(** ** Lists and loops *)

Lemma fold_left_snoc {A B} (f : A -> B) (l : list A) (acc : list B) :
  fold_left (fun acc' x => acc' ++ [f x]) l acc = acc ++ map f l.
Proof.
  revert acc; induction l as [|x l IH]; intros acc; simpl.
  - now rewrite app_nil_r.
  - rewrite IH, <- app_assoc. reflexivity.
Qed.

Lemma nested_append (k : Z) (l : list Z) (acc : list (Z * Z)) :
  fold_left
    (fun acc0 idx1 =>
       fold_left (fun acc' idx2 => acc' ++ [(idx1, idx2)]) (range2 (idx1 + 1) k) acc0)
    l acc
  = acc ++ flat_map (fun a => map (fun b => (a, b)) (range2 (a + 1) k)) l.
Proof.
  revert acc; induction l as [|a l IH]; intros acc; simpl.
  - now rewrite app_nil_r.
  - rewrite (fold_left_snoc (fun b => (a, b))), IH, <- app_assoc. reflexivity.
Qed.

Lemma build_OvO_indices_spec (k : Z) : build_OvO_indices k = pair_index_spec k.
Proof. unfold build_OvO_indices. now rewrite nested_append. Qed.

Lemma length_range2 (a b : Z) : length (range2 a b) = Z.to_nat (b - a).
Proof. unfold range2. now rewrite length_map, length_seq. Qed.

(** Twice the sum [n + (n-1) + ... + 1]. *)
Lemma triangle (n k : nat) :
  Nat.mul 2 (length (flat_map (fun a => map (fun b => (a, b))
                                            (range2 (a + 1) (Z.of_nat (k + n) + 1)))
                              (map (fun i => Z.of_nat k + Z.of_nat i) (seq 0 n))))
  = Nat.mul n (S n).
Proof.
  revert k; induction n as [|n IH]; intros k; [reflexivity|].
  cbn [seq map flat_map]. rewrite length_app, length_map, length_range2.
  rewrite <- seq_shift, map_map.
  specialize (IH (S k)).
  replace (Z.of_nat (S k + n)) with (Z.of_nat (k + S n)) in IH by lia.
  rewrite (map_ext (fun x => Z.of_nat k + Z.of_nat (S x))
                   (fun i => Z.of_nat (S k) + Z.of_nat i)) by (intros; lia).
  lia.
Qed.

Lemma length_pair_index_spec (k : Z) :
  2 <= k -> Z.of_nat (length (pair_index_spec k)) = k * (k - 1) / 2.
Proof.
  intros Hk. unfold pair_index_spec, range, range2.
  pose proof (triangle (Z.to_nat (k - 1)) 0) as T.
  replace (Z.of_nat (0 + Z.to_nat (k - 1)) + 1) with k in T by lia.
  rewrite Z.sub_0_r. cbn [Z.of_nat] in T.
  set (n := length _) in *.
  apply Z.div_unique_exact; [lia|]. nia.
Qed.

Lemma in_range2 (a b x : Z) : In x (range2 a b) <-> a <= x < b.
Proof.
  unfold range2. rewrite in_map_iff. split.
  - intros (i & <- & Hi). apply in_seq in Hi. lia.
  - intros Hx. exists (Z.to_nat (x - a)). split; [lia|]. apply in_seq. lia.
Qed.

Lemma in_pair_index_spec (k a b : Z) :
  In (a, b) (pair_index_spec k) <-> 0 <= a < b /\ b < k.
Proof.
  unfold pair_index_spec. rewrite in_flat_map. split.
  - intros (a' & Ha & Hb). apply in_map_iff in Hb as (b' & [= <- <-] & Hb).
    apply in_range2 in Ha, Hb. lia.
  - intros H. exists a. split.
    + apply in_range2. lia.
    + apply in_map_iff. exists b. split; [reflexivity|]. apply in_range2. lia.
Qed.

(** ** Indexing *)

Lemma nth_error_set_nth_eq {A} (l : list A) (k : nat) (a : A) :
  (k < length l)%nat -> nth_error (set_nth l k a) k = Some a.
Proof.
  revert k; induction l as [|x l IH]; intros [|k] Hk; simpl in *; try lia.
  - reflexivity.
  - apply IH. lia.
Qed.

Lemma nth_error_set_nth_neq {A} (l : list A) (k k' : nat) (a : A) :
  k <> k' -> nth_error (set_nth l k a) k' = nth_error l k'.
Proof.
  revert k k'; induction l as [|x l IH]; intros [|k] [|k'] Hk; simpl;
    try reflexivity; try congruence.
  apply IH. congruence.
Qed.

Lemma norm_index_nonneg (len : nat) (i : Z) (k : nat) :
  0 <= i -> norm_index len i = Ok k -> k = Z.to_nat i /\ (k < len)%nat.
Proof.
  intros Hi. unfold norm_index.
  destruct ((0 <=? i) && (i <? Z.of_nat len)) eqn:E1.
  - intros [= <-]. lia.
  - destruct ((- Z.of_nat len <=? i) && (i <? 0)) eqn:E2; [lia | discriminate].
Qed.

Lemma norm_index_lt (len : nat) (i : Z) (k : nat) :
  norm_index len i = Ok k -> (k < len)%nat.
Proof.
  unfold norm_index.
  destruct ((0 <=? i) && (i <? Z.of_nat len)) eqn:E1.
  - intros [= <-]. lia.
  - destruct ((- Z.of_nat len <=? i) && (i <? 0)) eqn:E2; [|discriminate].
    intros [= <-]. lia.
Qed.

Lemma norm_index_in_range (len : nat) (i : Z) :
  0 <= i < Z.of_nat len -> norm_index len i = Ok (Z.to_nat i).
Proof.
  intros Hi. unfold norm_index.
  now replace ((0 <=? i) && (i <? Z.of_nat len)) with true by lia.
Qed.

Lemma getitem_in_range {A} (l : list A) (i : Z) :
  0 <= i < Z.of_nat (length l) ->
  exists a, getitem l i = Ok a /\ nth_error l (Z.to_nat i) = Some a.
Proof.
  intros Hi. unfold getitem. rewrite norm_index_in_range by assumption. cbn [bindR].
  destruct (nth_error l (Z.to_nat i)) as [a|] eqn:E.
  - now exists a.
  - apply nth_error_None in E. lia.
Qed.

Lemma in_enumerate_nonneg {A} (l : list A) (i : Z) (a : A) :
  In (i, a) (enumerate l) -> 0 <= i < Z.of_nat (length l).
Proof.
  unfold enumerate. intros H. apply in_combine_l in H.
  unfold range in H. apply in_range2 in H. lia.
Qed.

Lemma length_set_nth {A} (l : list A) (k : nat) (a : A) :
  length (set_nth l k a) = length l.
Proof.
  revert k; induction l as [|x l IH]; intros [|k]; simpl; try reflexivity.
  now rewrite IH.
Qed.

(** ** Construction *)

(** C8: for every [nclasses >= 2] the two loops of the OvO constructor
    produce the pairs [(a, b)] for [a] from [0] to [nclasses-2] and, for
    each [a], [b] from [a+1] to [nclasses-1], in that order; for three
    classes this is [[(0,1); (0,2); (1,2)]]; there are
    [nclasses*(nclasses-1)/2] pairs; and this list is what a successful
    OvO construction stores. *)
Theorem OvO_pair_index (k : Z) (Hk : 2 <= k) :
  build_OvO_indices k = pair_index_spec k
  /\ build_OvO_indices 3 = [(0, 1); (0, 2); (1, 2)]
  /\ Z.of_nat (length (build_OvO_indices k)) = k * (k - 1) / 2
  /\ (forall a b, In (a, b) (build_OvO_indices k) <-> 0 <= a < b /\ b < k)
  /\ (forall ds ts tri tei km kp self,
         __init__ ds ts tri tei k km kp "OvO" = Ok self ->
         OvO_indices self = Some (build_OvO_indices k)).
Proof.
  split; [|split; [|split; [|split]]].
  - apply build_OvO_indices_spec.
  - reflexivity.
  - rewrite build_OvO_indices_spec. now apply length_pair_index_spec.
  - intros a b. rewrite build_OvO_indices_spec. apply in_pair_index_spec.
  - intros ds ts tri tei km kp self. unfold __init__. cbn [String.eqb Ascii.eqb Bool.eqb].
    destruct (np_zeros _ _); cbn [bindR]; [|discriminate].
    now intros [= <-].
Qed.

Lemma OvO_pair_index_witness :
  2 <= 3
  /\ build_OvO_indices 3 = pair_index_spec 3
  /\ build_OvO_indices 3 = [(0, 1); (0, 2); (1, 2)]
  /\ Z.of_nat (length (build_OvO_indices 3)) = 3 * (3 - 1) / 2
  /\ (forall a b, In (a, b) (build_OvO_indices 3) <-> 0 <= a < b /\ b < 3)
  /\ (forall ds ts tri tei km kp self,
         __init__ ds ts tri tei 3 km kp "OvO" = Ok self ->
         OvO_indices self = Some (build_OvO_indices 3)).
Proof. split; [lia | apply (OvO_pair_index 3); lia]. Defined.

(** C3, as the constructor falsifies it: one class, an empty training
    set and an unknown method are all accepted. *)
Lemma init_accepts_any_configuration :
  1 < 2
  /\ (exists self,
        __init__ Example.train_set Example.held_out [0] [1; 2; 3; 4] 1
                 Example.km 1%float "OvA" = Ok self)
  /\ (exists self,
        __init__ {| data := []; labels := []; size := 0 |} Example.held_out
                 [] [1; 2; 3; 4] 2 Example.km 1%float "OvO" = Ok self)
  /\ (exists self,
        __init__ Example.train_set Example.held_out [0] [1; 2; 3; 4] 2
                 Example.km 1%float "OvR" = Ok self
        /\ classifier self = None).
Proof.
  split; [lia|]. repeat split; eexists; try split; reflexivity.
Qed.

(** C3, amended: the constructor validates nothing.  For non-negative
    [nclasses] and [n] it succeeds for every method string; it allocates
    the all-zero [nclasses x n] matrix for ['OvA'], the all-zero
    [nclasses*(nclasses-1)/2 x n] matrix for ['OvO'], and no weight
    matrix for any other method. *)
Theorem init_allocates (ds ts : LabelledDataset) (tri tei : list Z) (k : Z)
    (km : matrix) (kp : float) (method : string)
    (Hk : 0 <= k) (Hn : 0 <= size ds) :
  exists self,
    __init__ ds ts tri tei k km kp method = Ok self
    /\ classifier self =
         (if String.eqb method "OvA"
          then Some (zeros (Z.to_nat k) (Z.to_nat (size ds)))
          else if String.eqb method "OvO"
          then Some (zeros (Z.to_nat (k * (k - 1) / 2)) (Z.to_nat (size ds)))
          else None)
    /\ nclasses self = k /\ dataset self = ds /\ classification_method self = method
    /\ triggered self = [].
Proof.
  unfold __init__, np_zeros.
  assert (H2 : 0 <= k * (k - 1) / 2) by (apply Z.div_pos; nia).
  destruct (String.eqb method "OvA"); [|destruct (String.eqb method "OvO")].
  - replace ((k <? 0) || (size ds <? 0)) with false by lia.
    cbn [bindR]. eexists. repeat split.
  - replace ((k * (k - 1) / 2 <? 0) || (size ds <? 0)) with false by lia.
    cbn [bindR]. eexists. repeat split.
  - eexists. repeat split.
Qed.

Lemma init_allocates_witness :
  0 <= 1 /\ 0 <= size Example.train_set
  /\ exists self,
       __init__ Example.train_set Example.held_out [0] [1; 2; 3; 4] 1
                Example.km 1%float "OvA" = Ok self
       /\ classifier self =
            (if String.eqb "OvA" "OvA"
             then Some (zeros (Z.to_nat 1) (Z.to_nat (size Example.train_set)))
             else if String.eqb "OvA" "OvO"
             then Some (zeros (Z.to_nat (1 * (1 - 1) / 2))
                              (Z.to_nat (size Example.train_set)))
             else None)
       /\ nclasses self = 1 /\ dataset self = Example.train_set
       /\ classification_method self = "OvA"%string
       /\ triggered self = [].
Proof.
  split; [lia|]. split; [simpl; lia|].
  apply (init_allocates Example.train_set Example.held_out [0] [1; 2; 3; 4]
                        1 Example.km 1%float "OvA"%string); simpl; lia.
Defined.

(** ** Prediction does not look at its argument *)

(** C10: whatever the object's state, [predict] returns the same outcome
    for any two [points] arguments.  What it returns is fixed by the
    kernel block between the stored [train_indices] and the stored
    [test_indices] and by the classifier: two objects that agree on the
    weights, the method, [nclasses] and the pair index, and whose kernel
    blocks coincide, predict the same for any two arguments. *)
Theorem predict_ignores_points (self : Kernel_perceptron) (points1 points2 : list vec) :
  predict points1 self = predict points2 self
  /\ (forall e,
        take_block (kernel_mtx self) (train_indices self) (test_indices self) = Raise e ->
        predict points1 self = (Raise e, self))
  /\ (forall other,
        classifier other = classifier self ->
        classification_method other = classification_method self ->
        nclasses other = nclasses self ->
        OvO_indices other = OvO_indices self ->
        take_block (kernel_mtx other) (train_indices other) (test_indices other)
        = take_block (kernel_mtx self) (train_indices self) (test_indices self) ->
        fst (predict points1 other) = fst (predict points2 self)).
Proof.
  split; [reflexivity|]. split.
  - intros e He. unfold predict, bind, get_self, lift. now rewrite He.
  - intros other HW Hm Hk Hp HK.
    unfold predict, bind, get_self, lift, ret, ovo_decide. cbv beta iota.
    rewrite HW, Hm, Hk, Hp, HK. clear HK.
    destruct (take_block _ _ _); [|reflexivity].
    destruct (attr (classifier self)); [|reflexivity].
    destruct (np_dot_mm _ _); [|reflexivity].
    destruct (String.eqb _ "OvA").
    + destruct (np_argmax_axis0 _); reflexivity.
    + destruct (String.eqb _ "OvO"); [|reflexivity].
      destruct (mapR _ _); reflexivity.
Qed.

(** ** The kernel utility *)

Lemma map_nth_seq {A B} (f : A -> B) (l : list A) (d : A) :
  map (fun j => f (nth j l d)) (seq 0 (length l)) = map f l.
Proof.
  induction l as [|a l IH]; [reflexivity|].
  cbn [length seq map nth]. rewrite <- seq_shift, map_map. cbn [nth].
  now rewrite IH.
Qed.

Lemma nth_column (A : matrix) (c j : nat) :
  nth j (column A c) 0%float = nth c (nth j (m_rows A) []) 0%float.
Proof.
  unfold column.
  transitivity (nth j (map (fun row : vec => nth c row 0%float) (m_rows A))
                    ((fun row : vec => nth c row 0%float) [])).
  - f_equal. now destruct c.
  - exact (map_nth (fun row : vec => nth c row 0%float) (m_rows A) [] j).
Qed.

Lemma column_transpose (A : matrix) (j : nat) :
  wf_matrix A -> (j < n_rows A)%nat ->
  column (np_transpose A) j = nth j (m_rows A) [].
Proof.
  intros Hwf Hj. unfold column at 1, np_transpose. cbn [m_rows].
  rewrite map_map.
  rewrite (map_ext _ (fun c => nth c (nth j (m_rows A) []) 0%float))
    by (intros; apply nth_column).
  assert (Hlen : length (nth j (m_rows A) []) = n_cols A).
  { unfold wf_matrix in Hwf. rewrite Forall_forall in Hwf.
    apply Hwf, nth_In, Hj. }
  rewrite <- Hlen.
  rewrite (map_nth_seq (fun x => x)). apply map_id.
Qed.

Lemma dot_transpose (x1 x2 : matrix) :
  wf_matrix x2 -> n_cols x1 = n_cols x2 ->
  np_dot_mm x1 (np_transpose x2)
  = Ok (Matrix (n_rows x2)
          (map (fun u => map (fun v => vdot u v) (m_rows x2)) (m_rows x1))).
Proof.
  intros Hwf Hc. unfold np_dot_mm.
  assert (Hr : n_rows (np_transpose x2) = n_cols x2)
    by (unfold n_rows, np_transpose; cbn [m_rows]; now rewrite length_map, length_seq).
  rewrite Hr, Hc, Nat.eqb_refl. cbn [np_transpose n_cols].
  do 2 f_equal. apply map_ext. intros u.
  rewrite <- (map_nth_seq (fun v => vdot u v) (m_rows x2) []).
  apply map_ext_in. intros j Hj. apply in_seq in Hj.
  rewrite column_transpose; [reflexivity | assumption | unfold n_rows; lia].
Qed.

(** C7, as the code falsifies it: with a kernel type that is neither
    ['polynomial'] nor ['Gaussian'] the utility raises nothing and
    returns [None]. *)
Lemma kernel_output_unknown_kernel_returns_none :
  kernel_output (fun x _ => x) (fun x => x) Example.x1 Example.x2
                (Example.with_kernel_func "linear")
  = (Ok KNone, Example.with_kernel_func "linear")
  /\ forall e,
       fst (kernel_output (fun x _ => x) (fun x => x) Example.x1 Example.x2
                          (Example.with_kernel_func "linear")) <> Raise e.
Proof. split; [reflexivity | intros e; discriminate]. Qed.

(** C7, amended: on an object whose [kernel_func] attribute holds [kf],
    and for two point sets of the same dimension, the utility returns
    the matrix of [(u . v)^d] when [kf] is ['polynomial'], the matrix of
    [exp(-gamma * |u - v|^2)] when [kf] is ['Gaussian'], and [None]
    without raising for any other [kf]; the object is left unchanged. *)
Theorem kernel_output_cases (np_power : float -> float -> float)
    (np_exp : float -> float) (self : Kernel_perceptron) (x1 x2 : matrix)
    (kf : string)
    (Hkf : kernel_func self = Some kf)
    (Hwf : wf_matrix x2) (Hdim : n_cols x1 = n_cols x2) :
  kernel_output np_power np_exp x1 x2 self
  = (Ok (if String.eqb kf "polynomial"
         then KArray (Matrix (n_rows x2)
                (map (fun u =>
                        map (fun v => np_power (vdot u v) (kernel_param self))
                            (m_rows x2))
                     (m_rows x1)))
         else if String.eqb kf "Gaussian"
         then KArray (Matrix (n_rows x2)
                (map (fun u =>
                        map (fun v =>
                               np_exp (- kernel_param self
                                       * np_power (sqrt (sqdist u v)) 2)%float)
                            (m_rows x2))
                     (m_rows x1)))
         else KNone),
     self).
Proof.
  unfold kernel_output, bind, get_self, lift, ret. rewrite Hkf. cbn [attr].
  destruct (String.eqb kf "polynomial").
  - rewrite dot_transpose by assumption.
    unfold matrix_map. cbn [n_cols m_rows]. do 4 f_equal.
    rewrite map_map. apply map_ext. intros u. now rewrite map_map.
  - destruct (String.eqb kf "Gaussian"); [|reflexivity].
    unfold cdist. rewrite Hdim, Nat.eqb_refl.
    unfold matrix_map. cbn [n_cols m_rows]. do 4 f_equal.
    rewrite map_map. apply map_ext. intros u. now rewrite map_map.
Qed.

Lemma kernel_output_cases_witness :
  kernel_func (Example.with_kernel_func "polynomial") = Some "polynomial"%string
  /\ wf_matrix Example.x2
  /\ n_cols Example.x1 = n_cols Example.x2
  /\ kernel_output (fun x _ => (x * x)%float) (fun x => x) Example.x1 Example.x2
                   (Example.with_kernel_func "polynomial")
     = (Ok (KArray (Matrix 3 [[1; 4; 9]; [9; 16; 49]]%float)),
        Example.with_kernel_func "polynomial").
Proof.
  assert (Hwf : wf_matrix Example.x2) by (repeat constructor).
  split; [reflexivity|]. split; [exact Hwf|]. split; [reflexivity|].
  exact (kernel_output_cases (fun x _ => (x * x)%float) (fun x => x)
           (Example.with_kernel_func "polynomial") Example.x1 Example.x2
           "polynomial"%string eq_refl Hwf eq_refl).
Defined.

(** ** The confusion matrix *)

(** C4 at a failing input: the object [Example.ova_trained], reached by
    construction and [train(5, 1e-5)], predicts [[1; 0; 0; 1]] for true
    labels [[0; 0; 0; 1]].  The one error is in cell [(0, 1)], and class 0
    has three test examples, so the claimed rate is [1/3]; the code
    divides by the frequency of class 1 and returns [1]. *)
Theorem confusion_matrix_divides_columns :
  fst (predict (data Example.held_out) Example.ova_trained) = Ok (Decisions [1; 0; 0; 1])
  /\ fst (confusion_counts Example.ova_trained)
     = Ok (Matrix 2 [[0; 1]; [0; 0]]%float, [3; 1])
  /\ fst (confusion_matrix Example.ova_trained)
     = Ok (Matrix 2 [[0; 1]; [0; 0]]%float)
  /\ row_normalised (Matrix 2 [[0; 1]; [0; 0]]%float) [3; 1]
     = Matrix 2 [[0; 1 / 3]; [0; 0]]%float
  /\ (1 =? 1 / 3)%float = false.
Proof. repeat split; vm_compute; reflexivity. Qed.

(** ** Prediction *)

Lemma mapR_length {A B} (f : A -> result B) (l : list A) (bs : list B) :
  mapR f l = Ok bs -> length bs = length l.
Proof.
  revert bs; induction l as [|a l IH]; intros bs; simpl.
  - now intros [= <-].
  - destruct (f a) as [b|]; [|discriminate]. cbn [bindR].
    destruct (mapR f l) as [bs'|]; [|discriminate]. cbn [bindR].
    intros [= <-]. simpl. now rewrite (IH bs').
Qed.

Lemma mapR_Forall {A B} (f : A -> result B) (P : B -> Prop) (l : list A) (bs : list B) :
  (forall a b, In a l -> f a = Ok b -> P b) ->
  mapR f l = Ok bs -> Forall P bs.
Proof.
  revert bs; induction l as [|a l IH]; intros bs HP; simpl.
  - intros [= <-]. constructor.
  - destruct (f a) as [b|] eqn:Ea; [|discriminate]. cbn [bindR].
    destruct (mapR f l) as [bs'|]; [|discriminate]. cbn [bindR].
    intros [= <-]. constructor.
    + apply (HP a); [now left | assumption].
    + apply IH; [|reflexivity]. intros a' b' Hin. apply HP. now right.
Qed.

Lemma foldR_invariant {A S} (f : S -> A -> result S) (P : S -> Prop)
    (l : list A) (s s' : S) :
  (forall s0 a s1, In a l -> P s0 -> f s0 a = Ok s1 -> P s1) ->
  P s -> foldR f l s = Ok s' -> P s'.
Proof.
  revert s; induction l as [|a l IH]; intros s Hf Hs; simpl.
  - now intros [= <-].
  - destruct (f s a) as [s1|] eqn:E; [|discriminate]. cbn [bindR].
    apply IH.
    + intros s0 a0 s2 Hin. apply Hf. now right.
    + apply (Hf s a); [now left | assumption | assumption].
Qed.

Lemma vupdate_length (v v' : vec) (i : Z) (f : float -> float) :
  vupdate v i f = Ok v' -> length v' = length v.
Proof.
  unfold vupdate. destruct (norm_index _ _) as [k|]; [|discriminate]. cbn [bindR].
  destruct (nth_error v k); [|discriminate].
  intros [= <-]. apply length_set_nth.
Qed.

Lemma argmax_from_bound (xs : vec) (mp : float) (best i : nat) :
  (best < i)%nat -> (argmax_from mp best i xs < i + length xs)%nat.
Proof.
  revert mp best i; induction xs as [|x xs IH]; intros mp best i Hb; simpl.
  - lia.
  - destruct (x <=? mp)%float.
    + specialize (IH mp best (S i)). lia.
    + destruct (is_nan x); [lia|].
      specialize (IH x i (S i)). lia.
Qed.

Lemma np_argmax_bound (xs : vec) (d : Z) :
  np_argmax xs = Ok d -> 0 <= d < Z.of_nat (length xs).
Proof.
  destruct xs as [|x xs]; [discriminate|]. unfold np_argmax.
  intros [= <-]. destruct (is_nan x); [simpl; lia|].
  pose proof (argmax_from_bound xs x 0 1). simpl length. lia.
Qed.

Lemma take_block_shape (A K : matrix) (rows cols : list Z) :
  take_block A rows cols = Ok K ->
  n_cols K = length cols /\ n_rows K = length rows
  /\ Forall (fun row => length row = length cols) (m_rows K).
Proof.
  unfold take_block.
  destruct (mapR _ rows) as [rs|] eqn:E; [|discriminate]. cbn [bindR].
  intros [= <-]. unfold n_rows. cbn [n_cols m_rows].
  split; [reflexivity|]. split; [now apply mapR_length in E|].
  eapply mapR_Forall; [|exact E]. intros r row _ Hrow. cbv beta in Hrow.
  now apply mapR_length in Hrow.
Qed.

Lemma length_column (A : matrix) (j : nat) : length (column A j) = n_rows A.
Proof. unfold column, n_rows. apply length_map. Qed.

Lemma ovo_decide_bound (self : Kernel_perceptron) (c : vec) (d : Z) :
  ovo_decide self c = Ok d -> 0 <= d < nclasses self.
Proof.
  unfold ovo_decide, np_zeros1.
  destruct (nclasses self <? 0) eqn:Hk; [discriminate|]. cbn [bindR].
  destruct (attr (OvO_indices self)) as [pairs|]; [|discriminate]. cbn [bindR].
  destruct (foldR _ _ _) as [tally|] eqn:Ef; [|discriminate]. cbn [bindR].
  intros Hd. apply np_argmax_bound in Hd.
  assert (Hlen : length tally = Z.to_nat (nclasses self)).
  { eapply (foldR_invariant _ (fun t => length t = Z.to_nat (nclasses self)));
      [| |exact Ef].
    - intros t [idx [a b]] t' _ Ht. unfold ovo_vote.
      destruct (getitem c idx) as [x|]; [|discriminate]. cbn [bindR].
      destruct (0 <? x)%float; intros Hu; apply vupdate_length in Hu; congruence.
    - apply repeat_length. }
  lia.
Qed.

(** C1, as the code falsifies it: given one point, [predict] returns four
    labels, one per stored test index. *)
Lemma predict_length_is_not_points :
  fst (predict [[1%float]] Example.ova_trained) = Ok (Decisions [1; 0; 0; 1])
  /\ length [1; 0; 0; 1] <> length [[1%float]].
Proof. split; [vm_compute; reflexivity | discriminate]. Qed.

Lemma predict_labels_if_returned (self self' : Kernel_perceptron) (points : list vec)
    (ds : list Z) :
  ova_rows self ->
  predict points self = (Ok (Decisions ds), self') ->
  length ds = length (test_indices self)
  /\ Forall (fun d => 0 <= d < nclasses self) ds.
Proof.
  intros Hrows Hp.
  unfold predict, bind, get_self, lift, ret in Hp.
  destruct (take_block _ _ _) as [K|] eqn:EK; [|discriminate].
  apply take_block_shape in EK as (Hc & _ & _).
  destruct (attr (classifier self)) as [W|] eqn:EW; [|discriminate].
  unfold np_dot_mm in Hp.
  destruct (Nat.eqb (n_cols W) (n_rows K)); [|discriminate].
  set (C := Matrix _ _) in Hp.
  destruct (String.eqb (classification_method self) "OvA") eqn:Em.
  - unfold np_argmax_axis0 in Hp.
    destruct (m_rows C) eqn:Erows; [discriminate|]. clear Erows.
    destruct (mapR _ _) as [ds'|] eqn:Ed; [|discriminate].
    injection Hp as <- _. split.
    + apply mapR_length in Ed. now rewrite Ed, length_seq, <- Hc.
    + eapply mapR_Forall; [|exact Ed]. intros j d _ Hd. cbv beta in Hd.
      apply np_argmax_bound in Hd. rewrite length_column in Hd.
      apply String.eqb_eq in Em. destruct (classifier self) as [W'|] eqn:EW'; [|discriminate].
      injection EW as ->.
      rewrite <- (Hrows W Em EW').
      unfold n_rows, C in Hd |- *. cbn [m_rows] in Hd. now rewrite length_map in Hd.
  - destruct (String.eqb (classification_method self) "OvO"); [|discriminate].
    destruct (mapR _ _) as [ds'|] eqn:Ed; [|discriminate].
    injection Hp as <- _. split.
    + apply mapR_length in Ed. rewrite Ed. unfold np_transpose. cbn [m_rows].
      now rewrite length_map, length_seq, <- Hc.
    + eapply mapR_Forall; [|exact Ed]. intros c d _. apply ovo_decide_bound.
Qed.

Lemma mapR_total {A B} (f : A -> result B) (l : list A) :
  (forall a, In a l -> exists b, f a = Ok b) -> exists bs, mapR f l = Ok bs.
Proof.
  induction l as [|a l IH]; intros Hf; cbn [mapR].
  - now exists [].
  - destruct (Hf a (or_introl eq_refl)) as [b ->]. cbn [bindR].
    destruct IH as [bs ->]; [intros a' Ha'; apply Hf; now right|].
    cbn [bindR]. now exists (b :: bs).
Qed.

Lemma foldR_total {A S} (f : S -> A -> result S) (P : S -> Prop) (l : list A) (s : S) :
  (forall s0 a, In a l -> P s0 -> exists s1, f s0 a = Ok s1 /\ P s1) ->
  P s -> exists s', foldR f l s = Ok s' /\ P s'.
Proof.
  revert s; induction l as [|a l IH]; intros s Hf Hs; cbn [foldR].
  - now exists s.
  - destruct (Hf s a (or_introl eq_refl) Hs) as (s1 & -> & Hs1). cbn [bindR].
    apply IH; [|assumption]. intros s0 a' Ha'. apply Hf. now right.
Qed.

Lemma vupdate_total (v : vec) (i : Z) (f : float -> float) :
  0 <= i < Z.of_nat (length v) ->
  exists v', vupdate v i f = Ok v' /\ length v' = length v.
Proof.
  intros Hi. unfold vupdate. rewrite norm_index_in_range by assumption. cbn [bindR].
  destruct (nth_error v (Z.to_nat i)) as [x|] eqn:E.
  - eexists. split; [reflexivity | apply length_set_nth].
  - apply nth_error_None in E. lia.
Qed.

Lemma ovo_decide_total (self : Kernel_perceptron) (pairs : list (Z * Z)) (c : vec) :
  0 < nclasses self ->
  OvO_indices self = Some pairs ->
  (length pairs <= length c)%nat ->
  (forall a b, In (a, b) pairs -> 0 <= a < nclasses self /\ 0 <= b < nclasses self) ->
  exists d, ovo_decide self c = Ok d.
Proof.
  intros Hk Hp Hlen Hin. unfold ovo_decide, np_zeros1.
  replace (nclasses self <? 0) with false by lia. cbn [bindR].
  rewrite Hp. cbn [attr bindR].
  destruct (foldR_total (ovo_vote c)
              (fun t => length t = Z.to_nat (nclasses self))
              (enumerate pairs) (repeat 0%float (Z.to_nat (nclasses self))))
    as (tally & -> & Ht).
  - intros t [idx [a b]] Hq Hlt.
    pose proof (in_enumerate_nonneg _ _ _ Hq) as Hidx.
    unfold enumerate in Hq. apply in_combine_r in Hq. destruct (Hin a b Hq) as [Ha Hb].
    unfold ovo_vote. cbn [fst snd].
    destruct (getitem_in_range c idx) as (x & -> & _); [lia|]. cbn [bindR].
    destruct (0 <? x)%float.
    + destruct (vupdate_total t a (fun x0 => (x0 + 1)%float)) as (t' & -> & Hl); [lia|].
      exists t'. split; [reflexivity | congruence].
    + destruct (vupdate_total t b (fun x0 => (x0 + 1)%float)) as (t' & -> & Hl); [lia|].
      exists t'. split; [reflexivity | congruence].
  - apply repeat_length.
  - cbn [bindR]. destruct tally as [|x tally]; [simpl in Ht; lia|].
    eexists. reflexivity.
Qed.

Lemma predict_returns (self : Kernel_perceptron) (points : list vec) :
  predict_ready self ->
  exists ds, predict points self = (Ok (Decisions ds), self).
Proof.
  intros (K & W & HK & HW & Hcols & Hmode).
  unfold predict, bind, get_self, lift, ret. rewrite HK, HW. cbn [attr].
  unfold np_dot_mm. rewrite Hcols, Nat.eqb_refl.
  set (C := Matrix _ _).
  assert (HrowsC : n_rows C = n_rows W) by (unfold n_rows, C; cbn [m_rows]; apply length_map).
  destruct Hmode as [(-> & Hk & Hrows) | (-> & Hk & pairs & Hp & Hlen & Hin)];
    cbn [String.eqb Ascii.eqb Bool.eqb].
  - unfold np_argmax_axis0.
    destruct (m_rows C) as [|row rows] eqn:EC.
    { unfold n_rows in *. rewrite EC in HrowsC. simpl in HrowsC. lia. }
    destruct (mapR_total (fun j => np_argmax (column C j)) (seq 0 (n_cols C)))
      as [ds ->]; [|now exists ds].
    intros j _. pose proof (length_column C j) as Hl.
    destruct (column C j); [simpl in Hl; lia | eexists; reflexivity].
  - destruct (mapR_total (ovo_decide self) (m_rows (np_transpose C)))
      as [ds ->]; [|now exists ds].
    intros c Hc. unfold np_transpose in Hc. cbn [m_rows] in Hc.
    apply in_map_iff in Hc as (j & <- & _).
    apply (ovo_decide_total self pairs); try assumption.
    rewrite length_column. lia.
Qed.

(** C1, amended: on an object that [predict] can read (see
    [predict_ready]), in OvA mode as in OvO mode, [predict] returns an
    array and leaves the object alone; the array holds exactly one label
    per stored test index, whatever points were passed, and every label
    lies in [[0, nclasses)]. *)
Theorem predict_labels (self : Kernel_perceptron) (points : list vec)
    (Hready : predict_ready self) :
  exists ds,
    predict points self = (Ok (Decisions ds), self)
    /\ length ds = length (test_indices self)
    /\ Forall (fun d => 0 <= d < nclasses self) ds.
Proof.
  destruct (predict_returns self points Hready) as [ds Hp].
  exists ds. split; [exact Hp|].
  apply (predict_labels_if_returned self self points ds); [|exact Hp].
  destruct Hready as (K & W & _ & HW & _ & Hmode).
  intros W' Hm HW'. rewrite HW in HW'. injection HW' as <-.
  destruct Hmode as [(_ & _ & Hrows) | (Hm' & _)]; [assumption|].
  rewrite Hm in Hm'. discriminate.
Qed.

Lemma predict_labels_witness :
  predict_ready Example.ova_trained
  /\ exists ds,
       predict [[1%float]] Example.ova_trained = (Ok (Decisions ds), Example.ova_trained)
       /\ length ds = length (test_indices Example.ova_trained)
       /\ Forall (fun d => 0 <= d < nclasses Example.ova_trained) ds.
Proof.
  assert (Hready : predict_ready Example.ova_trained).
  { exists (Matrix 4 [[1; -1; -1; 1]]%float), (Matrix 1 [[0]; [1]]%float).
    split; [vm_compute; reflexivity|]. split; [vm_compute; reflexivity|].
    split; [reflexivity|]. left.
    split; [vm_compute; reflexivity|]. split; [vm_compute; reflexivity | reflexivity]. }
  split; [exact Hready|].
  exact (predict_labels Example.ova_trained [[1%float]] Hready).
Defined.

(** ** Relations kept by every run of a method *)

Section Stable.

Variable R : Kernel_perceptron -> Kernel_perceptron -> Prop.
Hypothesis R_refl : forall s, R s s.
Hypothesis R_trans : forall s1 s2 s3, R s1 s2 -> R s2 s3 -> R s1 s3.

Lemma stable_ret {A} (a : A) : stable R (ret a).
Proof. intros s. apply R_refl. Qed.

Lemma stable_raise {A} (e : exn) : stable R (@raise A e).
Proof. intros s. apply R_refl. Qed.

Lemma stable_lift {A} (r : result A) : stable R (lift r).
Proof. intros s. apply R_refl. Qed.

Lemma stable_get_self : stable R get_self.
Proof. intros s. apply R_refl. Qed.

Lemma stable_bind {A B} (m : M A) (k : A -> M B) :
  stable R m -> (forall a, stable R (k a)) -> stable R (bind m k).
Proof.
  intros Hm Hk s. unfold bind. specialize (Hm s).
  destruct (m s) as [[a|e] s1]; cbn [snd] in *.
  - eapply R_trans; [exact Hm | apply Hk].
  - exact Hm.
Qed.

Lemma stable_for_each {A S} (body : S -> A -> M S) (l : list A) (s0 : S) :
  (forall s a, In a l -> stable R (body s a)) -> stable R (for_each body l s0).
Proof.
  revert s0; induction l as [|a l IH]; intros s0 Hb; cbn [for_each].
  - apply stable_ret.
  - apply stable_bind; [apply Hb; now left|].
    intros s'. apply IH. intros s a' Hin. apply Hb. now right.
Qed.

Lemma stable_readonly {A} (m : M A) : readonly m -> stable R m.
Proof. intros Hm s. rewrite <- (Hm s) at 1. apply R_refl. Qed.

End Stable.

(** Walks through the body of a method built from reads and pure
    computations. *)
Ltac stable_walk R Hr Ht :=
  repeat first
    [ apply (stable_ret R Hr)
    | apply (stable_raise R Hr)
    | apply (stable_lift R Hr)
    | apply (stable_get_self R Hr)
    | apply (stable_bind R Ht); [|intros]
    | match goal with
      | |- stable _ (if ?b then _ else _) => destruct b
      | |- stable _ (match ?x with _ => _ end) => destruct x
      end ].

Lemma readonly_predict (points : list vec) : readonly (predict points).
Proof. unfold readonly, predict. stable_walk (@eq Kernel_perceptron) (@eq_refl Kernel_perceptron) (@eq_trans Kernel_perceptron). Qed.

Lemma readonly_test_error : readonly test_error.
Proof.
  unfold readonly, test_error.
  stable_walk (@eq Kernel_perceptron) (@eq_refl Kernel_perceptron) (@eq_trans Kernel_perceptron).
Qed.

Lemma readonly_confusion_matrix : readonly confusion_matrix.
Proof.
  unfold readonly, confusion_matrix, confusion_counts.
  stable_walk (@eq Kernel_perceptron) (@eq_refl Kernel_perceptron) (@eq_trans Kernel_perceptron).
Qed.

Lemma readonly_count_mistake_vec : readonly count_mistake_vec.
Proof.
  unfold readonly, count_mistake_vec.
  stable_walk (@eq Kernel_perceptron) (@eq_refl Kernel_perceptron) (@eq_trans Kernel_perceptron).
Qed.

(** ** Writes into the weight matrix *)

(** A successful write changes one entry and nothing else. *)
Lemma mupdate_inv (W W' : matrix) (r c : Z) (f : float -> float) :
  mupdate W r c f = Ok W' ->
  exists i k row x,
    norm_index (n_rows W) r = Ok i /\ norm_index (n_cols W) c = Ok k
    /\ nth_error (m_rows W) i = Some row /\ nth_error row k = Some x
    /\ W' = Matrix (n_cols W) (set_nth (m_rows W) i (set_nth row k (f x))).
Proof.
  unfold mupdate.
  destruct (norm_index (n_rows W) r) as [i|]; [|discriminate]. cbn [bindR].
  destruct (norm_index (n_cols W) c) as [k|]; [|discriminate]. cbn [bindR].
  destruct (nth_error (m_rows W) i) as [row|] eqn:Er; [|discriminate].
  destruct (nth_error row k) as [x|] eqn:Ex; [|discriminate].
  intros [= <-]. now exists i, k, row, x.
Qed.

Lemma weight_set (W : matrix) (i k : nat) (row : vec) (v : float) (r c : nat) :
  nth_error (m_rows W) i = Some row -> (k < length row)%nat ->
  weight (Matrix (n_cols W) (set_nth (m_rows W) i (set_nth row k v))) r c
  = if Nat.eqb r i && Nat.eqb c k then Some v else weight W r c.
Proof.
  intros Hrow Hk. unfold weight. cbn [m_rows].
  assert (Hi : (i < length (m_rows W))%nat) by (apply nth_error_Some; congruence).
  destruct (Nat.eqb_spec r i) as [->|Hr]; cbn [andb].
  - rewrite nth_error_set_nth_eq by assumption. rewrite Hrow.
    destruct (Nat.eqb_spec c k) as [->|Hc].
    + now apply nth_error_set_nth_eq.
    + apply nth_error_set_nth_neq. congruence.
  - rewrite nth_error_set_nth_neq by congruence. reflexivity.
Qed.

Lemma mupdate_shape (W W' : matrix) (r c : Z) (f : float -> float) :
  mupdate W r c f = Ok W' ->
  n_cols W' = n_cols W /\ n_rows W' = n_rows W /\ (wf_matrix W -> wf_matrix W').
Proof.
  intros H. apply mupdate_inv in H as (i & k & row & x & _ & _ & Hrow & Hx & ->).
  unfold n_rows, wf_matrix. cbn [n_cols m_rows].
  split; [reflexivity|]. split; [apply length_set_nth|].
  assert (Hi : (i < length (m_rows W))%nat) by (apply nth_error_Some; congruence).
  rewrite !Forall_forall. intros Hwf row' Hin.
  apply In_nth_error in Hin as (j & Hj).
  destruct (Nat.eq_dec i j) as [<-|Hij].
  - rewrite nth_error_set_nth_eq in Hj by exact Hi.
    injection Hj as <-. rewrite length_set_nth. apply Hwf.
    eapply nth_error_In; eassumption.
  - rewrite nth_error_set_nth_neq in Hj by assumption.
    apply Hwf. eapply nth_error_In; eassumption.
Qed.

Lemma mupdate_off_column (W W' : matrix) (r c : Z) (f : float -> float) :
  0 <= c -> mupdate W r c f = Ok W' ->
  forall r' c', Z.of_nat c' <> c -> weight W' r' c' = weight W r' c'.
Proof.
  intros Hc H r' c' Hne.
  apply mupdate_inv in H as (i & k & row & x & _ & Hk & Hrow & Hx & ->).
  apply norm_index_nonneg in Hk as [-> _]; [|assumption].
  rewrite weight_set by (try assumption; apply nth_error_Some; congruence).
  destruct (Nat.eqb_spec c' (Z.to_nat c)) as [->|_]; [lia|].
  now rewrite andb_false_r.
Qed.

(** ** What training may change *)

Section ExampleStable.

Variable R : Kernel_perceptron -> Kernel_perceptron -> Prop.
Hypothesis R_refl : forall s, R s s.
Hypothesis R_trans : forall s1 s2 s3, R s1 s2 -> R s2 s3 -> R s1 s3.

Variable data_idx : Z.
Hypothesis R_update :
  forall mistakes r f, stable R (mistake_update data_idx mistakes r f).

Ltac walk :=
  repeat first
    [ apply R_update
    | apply (stable_ret R R_refl)
    | apply (stable_lift R R_refl)
    | apply (stable_get_self R R_refl)
    | apply (stable_bind R R_trans); [|intros]
    | match goal with
      | |- stable _ (if ?b then _ else _) => destruct b
      | |- stable _ (match ?x with _ => _ end) => destruct x
      end ].

Lemma stable_ova_class (confidence : vec) (mistakes this_class : Z) :
  stable R (ova_class confidence data_idx mistakes this_class).
Proof. unfold ova_class. walk. Qed.

Lemma stable_ovo_pair (confidence : vec) (mistakes : Z) (p : Z * (Z * Z)) :
  stable R (ovo_pair confidence data_idx mistakes p).
Proof. unfold ovo_pair. destruct p as [class_idx this_pair]. walk. Qed.

Lemma stable_train_example (K : matrix) (mistakes : Z) (data_point : vec) :
  stable R (train_example K mistakes (data_idx, data_point)).
Proof.
  unfold train_example.
  repeat (apply (stable_bind R R_trans);
          [first [apply (stable_get_self R R_refl) | apply (stable_lift R R_refl)]
          | intros]).
  destruct (String.eqb _ "OvA").
  - apply (stable_for_each R R_refl R_trans). intros. apply stable_ova_class.
  - destruct (String.eqb _ "OvO"); [|apply (stable_ret R R_refl)].
    apply (stable_bind R R_trans); [apply (stable_lift R R_refl)|intros].
    apply (stable_for_each R R_refl R_trans). intros. apply stable_ovo_pair.
Qed.

End ExampleStable.

Section TrainStable.

Variable R : Kernel_perceptron -> Kernel_perceptron -> Prop.
Hypothesis R_refl : forall s, R s s.
Hypothesis R_trans : forall s1 s2 s3, R s1 s2 -> R s2 s3 -> R s1 s3.
Hypothesis R_update :
  forall data_idx mistakes r f,
    0 <= data_idx -> stable R (mistake_update data_idx mistakes r f).

Lemma stable_epoch (K : matrix) : stable R (epoch K).
Proof.
  unfold epoch.
  apply (stable_bind R R_trans); [apply (stable_get_self R R_refl)|intros self0].
  apply (stable_bind R R_trans).
  - apply (stable_for_each R R_refl R_trans). intros m [idx pt] Hin.
    apply in_enumerate_nonneg in Hin.
    apply stable_train_example; try assumption.
    intros. apply R_update. lia.
  - intros m. apply (stable_bind R R_trans); [apply (stable_lift R R_refl)|intros].
    apply (stable_bind R R_trans); [|intros; apply (stable_ret R R_refl)].
    apply (stable_readonly R R_refl). apply readonly_test_error.
Qed.

Lemma stable_train_loop (epochs : nat) (K : matrix) (epsilon p1 p2 : float)
    (last : option float) :
  stable R (train_loop epochs K epsilon p1 p2 last).
Proof.
  revert p1 p2 last; induction epochs as [|n IH]; intros p1 p2 last; cbn [train_loop].
  - destruct last; [apply (stable_ret R R_refl) | apply (stable_raise R R_refl)].
  - apply (stable_bind R R_trans); [apply stable_epoch|].
    intros [tr te]. destruct (_ || _); [apply (stable_ret R R_refl) | apply IH].
Qed.

Lemma stable_train (max_epochs : Z) (epsilon : float) :
  stable R (train max_epochs epsilon).
Proof.
  unfold train.
  apply (stable_bind R R_trans); [apply (stable_get_self R R_refl)|intros].
  apply (stable_bind R R_trans); [apply (stable_lift R R_refl)|intros].
  apply stable_train_loop.
Qed.

End TrainStable.

Lemma same_off_column_refl (j : Z) (s : Kernel_perceptron) : same_off_column j s s.
Proof. unfold same_off_column. destruct (classifier s); auto. Qed.

Lemma same_off_column_trans (j : Z) (s1 s2 s3 : Kernel_perceptron) :
  same_off_column j s1 s2 -> same_off_column j s2 s3 -> same_off_column j s1 s3.
Proof.
  unfold same_off_column.
  destruct (classifier s1), (classifier s2), (classifier s3); try tauto.
  intros (Hc1 & Hr1 & H1) (Hc2 & Hr2 & H2).
  split; [congruence|]. split; [congruence|].
  intros r c Hc. rewrite H2, H1 by assumption. reflexivity.
Qed.

Lemma mistake_update_run (data_idx mistakes r : Z) (f : float -> float)
    (self : Kernel_perceptron) :
  mistake_update data_idx mistakes r f self
  = match W <~ attr (classifier self) ;; mupdate W r data_idx f with
    | Ok W' => (Ok (mistakes + 1), bump r data_idx f self)
    | Raise e => (Raise e, bump r data_idx f self)
    end.
Proof.
  unfold mistake_update, bind, count_mistake, classifier_update, ret, bump.
  cbn [classifier with_triggered].
  destruct (W <~ attr (classifier self) ;; mupdate W r data_idx f); reflexivity.
Qed.

Lemma snd_mistake_update (data_idx mistakes r : Z) (f : float -> float)
    (self : Kernel_perceptron) :
  snd (mistake_update data_idx mistakes r f self) = bump r data_idx f self.
Proof.
  rewrite mistake_update_run.
  now destruct (W <~ attr (classifier self) ;; mupdate W r data_idx f).
Qed.

Lemma same_off_column_update (data_idx mistakes r : Z) (f : float -> float) :
  0 <= data_idx ->
  stable (same_off_column data_idx) (mistake_update data_idx mistakes r f).
Proof.
  intros Hidx self. rewrite snd_mistake_update.
  unfold bump, same_off_column.
  destruct (classifier self) as [W|] eqn:EW; cbn [attr bindR].
  - destruct (mupdate W r data_idx f) as [W'|] eqn:EU;
      cbn [classifier with_classifier with_triggered]; rewrite ?EW.
    + destruct (mupdate_shape _ _ _ _ _ EU) as (Hc & Hr & _).
      split; [assumption|]. split; [assumption|].
      now apply mupdate_off_column with (r := r) (f := f).
    + auto.
  - cbn [classifier with_triggered]. now rewrite EW.
Qed.

Lemma same_shape_refl (s : Kernel_perceptron) : same_shape s s.
Proof. unfold same_shape. destruct (classifier s); auto. Qed.

Lemma same_shape_trans (s1 s2 s3 : Kernel_perceptron) :
  same_shape s1 s2 -> same_shape s2 s3 -> same_shape s1 s3.
Proof.
  unfold same_shape.
  destruct (classifier s1), (classifier s2), (classifier s3); try tauto.
  intros (Hc1 & Hr1 & H1) (Hc2 & Hr2 & H2).
  split; [congruence|]. split; [congruence | auto].
Qed.

Lemma same_shape_update (data_idx mistakes r : Z) (f : float -> float) :
  stable same_shape (mistake_update data_idx mistakes r f).
Proof.
  intros self. rewrite snd_mistake_update.
  unfold bump, same_shape.
  destruct (classifier self) as [W|] eqn:EW; cbn [attr bindR].
  - destruct (mupdate W r data_idx f) as [W'|] eqn:EU;
      cbn [classifier with_classifier with_triggered]; rewrite ?EW.
    + exact (mupdate_shape _ _ _ _ _ EU).
    + auto.
  - cbn [classifier with_triggered]. now rewrite EW.
Qed.

Lemma keeps_nonzero_triggered_refl (s : Kernel_perceptron) :
  keeps_nonzero_triggered s s.
Proof. now intros H. Qed.

Lemma keeps_nonzero_triggered_trans (s1 s2 s3 : Kernel_perceptron) :
  keeps_nonzero_triggered s1 s2 -> keeps_nonzero_triggered s2 s3 ->
  keeps_nonzero_triggered s1 s3.
Proof. unfold keeps_nonzero_triggered. tauto. Qed.

Lemma keeps_nonzero_triggered_update (data_idx mistakes r : Z) (f : float -> float) :
  0 <= data_idx ->
  stable keeps_nonzero_triggered (mistake_update data_idx mistakes r f).
Proof.
  intros Hidx self Hinv. rewrite snd_mistake_update.
  unfold bump, nonzero_triggered in *.
  destruct (classifier self) as [W|] eqn:EW; cbn [attr bindR].
  - destruct (mupdate W r data_idx f) as [W'|] eqn:EU;
      cbn [classifier triggered with_classifier with_triggered].
    + intros W0 r0 c0 x [= <-] Hw Hx.
      destruct (Z.eq_dec (Z.of_nat c0) data_idx) as [->|Hne]; [now left|].
      right. apply (Hinv W r0 c0 x eq_refl); [|assumption].
      now rewrite <- (mupdate_off_column _ _ _ _ _ Hidx EU r0 c0 Hne).
    + rewrite EW. intros W0 r0 c0 x [= <-] Hw Hx. right. now apply (Hinv W r0 c0 x).
  - cbn [classifier with_triggered]. rewrite EW. discriminate.
Qed.

Lemma weight_zeros (r c i j : nat) (x : float) :
  weight (zeros r c) i j = Some x -> x = 0%float.
Proof.
  unfold weight, zeros. cbn [m_rows].
  destruct (nth_error (repeat _ r) i) as [row|] eqn:Er; [|discriminate].
  apply nth_error_In, repeat_spec in Er. subst row.
  intros Hx. now apply nth_error_In, repeat_spec in Hx.
Qed.

Lemma init_classifier (ds ts : LabelledDataset) (tri tei : list Z) (k : Z)
    (km : matrix) (kp : float) (method : string) (self : Kernel_perceptron)
    (W : matrix) :
  __init__ ds ts tri tei k km kp method = Ok self ->
  classifier self = Some W ->
  triggered self = [] /\ exists r c, W = zeros r c.
Proof.
  unfold __init__, np_zeros.
  destruct (String.eqb method "OvA"); [|destruct (String.eqb method "OvO")].
  - destruct (_ || _); cbn [bindR]; [discriminate|].
    intros [= <-]. cbn. intros [= <-]. eauto.
  - destruct (_ || _); cbn [bindR]; [discriminate|].
    intros [= <-]. cbn. intros [= <-]. eauto.
  - intros [= <-]. discriminate.
Qed.

(** ** The mistake rules *)

Lemma mupdate_in_range (W : matrix) (r c : Z) (f : float -> float) :
  wf_matrix W -> 0 <= r < Z.of_nat (n_rows W) -> 0 <= c < Z.of_nat (n_cols W) ->
  exists W' w,
    mupdate W r c f = Ok W'
    /\ weight W (Z.to_nat r) (Z.to_nat c) = Some w
    /\ weight W' (Z.to_nat r) (Z.to_nat c) = Some (f w)
    /\ (forall r' c', r' <> Z.to_nat r \/ c' <> Z.to_nat c ->
                      weight W' r' c' = weight W r' c').
Proof.
  intros Hwf Hr Hc. unfold mupdate.
  rewrite !norm_index_in_range by assumption. cbn [bindR].
  destruct (nth_error (m_rows W) (Z.to_nat r)) as [row|] eqn:Er.
  2:{ apply nth_error_None in Er. unfold n_rows in Hr. lia. }
  assert (Hlen : length row = n_cols W).
  { unfold wf_matrix in Hwf. rewrite Forall_forall in Hwf.
    eapply Hwf, nth_error_In, Er. }
  destruct (nth_error row (Z.to_nat c)) as [w|] eqn:Ew.
  2:{ apply nth_error_None in Ew. lia. }
  eexists _, w. split; [reflexivity|].
  assert (Hk : (Z.to_nat c < length row)%nat) by lia.
  split; [unfold weight; now rewrite Er|].
  split.
  - rewrite weight_set by assumption. now rewrite !Nat.eqb_refl.
  - intros r' c' Hne. rewrite weight_set by assumption.
    destruct (Nat.eqb_spec r' (Z.to_nat r)), (Nat.eqb_spec c' (Z.to_nat c));
      cbn [andb]; try reflexivity. lia.
Qed.

Section RowLoop.

Variable A : Type.
Variable body : Z -> A -> M Z.
Variable row_of : A -> Z.
Variable rule : A -> option (float -> float).
Variable data_idx : Z.
Variable ds : LabelledDataset.

Lemma row_loop (items : list A) :
  turn_spec body row_of rule data_idx ds items ->
  NoDup (map row_of items) ->
  forall (self : Kernel_perceptron) (W : matrix) (mistakes : Z),
    classifier self = Some W -> dataset self = ds -> wf_matrix W ->
    (forall a, In a items -> 0 <= row_of a < Z.of_nat (n_rows W)) ->
    0 <= data_idx < Z.of_nat (n_cols W) ->
    exists self' W',
      for_each body items mistakes self
      = (Ok (mistakes + count_fires rule items), self')
      /\ classifier self' = Some W'
      /\ (forall a w, In a items ->
            weight W (Z.to_nat (row_of a)) (Z.to_nat data_idx) = Some w ->
            weight W' (Z.to_nat (row_of a)) (Z.to_nat data_idx)
            = Some (match rule a with Some f => f w | None => w end))
      /\ (forall r c, (forall a, In a items -> r <> Z.to_nat (row_of a))
                      \/ c <> Z.to_nat data_idx ->
                      weight W' r c = weight W r c).
Proof.
  induction items as [|a items IH]; intros Hturn Hnd self W m HW Hds Hwf Hrows Hidx.
  - exists self, W. cbn [for_each]. unfold ret, count_fires. cbn.
    rewrite Z.add_0_r. repeat split; auto. intros a w [].
  - cbn [for_each]. unfold bind.
    rewrite (Hturn m a self (or_introl eq_refl) Hds).
    cbn [map] in Hnd. apply NoDup_cons_iff in Hnd as [Hnotin Hnd'].
    assert (Hturn' : turn_spec body row_of rule data_idx ds items)
      by (intros m' a' s' Hin; apply Hturn; now right).
    assert (Hcount : count_fires rule (a :: items)
                     = (if fires rule a then 1 else 0) + count_fires rule items).
    { unfold count_fires. cbn [filter]. destruct (fires rule a); cbn [length]; lia. }
    assert (Hdistinct : forall b, In b items -> Z.to_nat (row_of b) <> Z.to_nat (row_of a)).
    { intros b Hb E. apply Hnotin.
      assert (row_of a = row_of b).
      { pose proof (Hrows a (or_introl eq_refl)). pose proof (Hrows b (or_intror Hb)). lia. }
      rewrite H. now apply in_map. }
    unfold fires in Hcount. destruct (rule a) as [f|] eqn:Erule.
    + rewrite mistake_update_run. rewrite HW. cbn [attr bindR].
      destruct (mupdate_in_range W (row_of a) data_idx f Hwf
                  (Hrows a (or_introl eq_refl)) Hidx)
        as (W1 & w0 & EU & Hw0 & Hw1 & Hother).
      unfold bump. rewrite HW. cbn [attr bindR]. rewrite EU.
      destruct (mupdate_shape _ _ _ _ _ EU) as (Hc1 & Hr1 & Hwf1).
      set (self1 := with_classifier W1 _).
      destruct (IH Hturn' Hnd' self1 W1 (m + 1)) as (self' & W' & Hrun & HW' & Hitems & Hrest);
        try reflexivity; try assumption; try (now apply Hwf1).
      { intros b Hb. rewrite Hr1. apply Hrows. now right. }
      { now rewrite Hc1. }
      exists self', W'. rewrite Hrun, Hcount.
      split; [f_equal; f_equal; lia|]. split; [assumption|]. split.
      * intros b w [<-|Hb] Hw.
        -- rewrite Erule. rewrite Hrest by (left; intros b Hb E; now apply (Hdistinct b)).
           congruence.
        -- apply Hitems; [assumption|].
           rewrite Hother by (left; now apply Hdistinct). assumption.
      * intros r c Hrc. rewrite Hrest.
        -- apply Hother. destruct Hrc as [Hr|Hc]; [left; apply Hr; now left | now right].
        -- destruct Hrc as [Hr|Hc]; [left; intros b Hb; apply Hr; now right | now right].
    + destruct (IH Hturn' Hnd' self W m) as (self' & W' & Hrun & HW' & Hitems & Hrest);
        try assumption.
      { intros b Hb. apply Hrows. now right. }
      exists self', W'. rewrite Hrun, Hcount.
      split; [reflexivity|]. split; [assumption|]. split.
      * intros b w [<-|Hb] Hw.
        -- rewrite Erule. rewrite Hrest by (left; intros b Hb E; now apply (Hdistinct b)).
           assumption.
        -- now apply Hitems.
      * intros r c Hrc. apply Hrest.
        destruct Hrc as [Hr|Hc]; [left; intros b Hb; apply Hr; now right | now right].
Qed.

End RowLoop.

Lemma ova_class_turn (confidence : vec) (data_idx l : Z) (ds : LabelledDataset)
    (classes : list Z) :
  getitem (labels ds) data_idx = Ok l ->
  (forall c, In c classes -> exists x, getitem confidence c = Ok x) ->
  turn_spec (ova_class confidence data_idx) (fun c => c)
            (ova_rule_at confidence l) data_idx ds classes.
Proof.
  intros Hl Hconf m c self Hin Hds.
  destruct (Hconf c Hin) as [x Hx].
  unfold ova_rule_at, ova_rule. rewrite Hx.
  unfold ova_class, bind, get_self, lift, ret. rewrite Hx, Hds, Hl.
  destruct (0 <? x)%float, (c =? l), (x <=? 0)%float; reflexivity.
Qed.

Lemma ovo_pair_turn (confidence : vec) (data_idx l : Z) (ds : LabelledDataset)
    (pairs : list (Z * (Z * Z))) :
  getitem (labels ds) data_idx = Ok l ->
  (forall p, In p pairs ->
             fst (snd p) <> snd (snd p) /\ exists x, getitem confidence (fst p) = Ok x) ->
  turn_spec (ovo_pair confidence data_idx) fst
            (ovo_rule_at confidence l) data_idx ds pairs.
Proof.
  intros Hl Hconf m p self Hin Hds.
  destruct (Hconf p Hin) as [Hab [x Hx]]. destruct p as [class_idx [a b]].
  cbn [fst snd] in *.
  unfold ovo_rule_at, ovo_rule. cbn [fst snd]. rewrite Hx.
  unfold ovo_pair, bind, get_self, lift, ret. cbn [fst snd]. rewrite Hds, Hl, Hx.
  destruct (Z.eqb_spec a l) as [Ha|Ha], (Z.eqb_spec b l) as [Hb|Hb];
    try congruence; cbn [andb].
  - destruct (x <=? 0)%float; [|reflexivity].
    unfold mistake_update, bind, count_mistake, classifier_update, ret.
    cbn [classifier with_triggered].
    destruct (W <~ attr (classifier self) ;; mupdate W class_idx data_idx _);
      reflexivity.
  - destruct (0 <? x)%float; reflexivity.
  - reflexivity.
Qed.

Lemma NoDup_range2 (a b : Z) : NoDup (range2 a b).
Proof.
  unfold range2. generalize (Z.to_nat (b - a)) as n. intros n.
  generalize 0%nat as s. induction n as [|n IH]; intros s; cbn [seq map].
  - constructor.
  - constructor; [|apply IH].
    rewrite in_map_iff. intros (k & Hk & Hin). apply in_seq in Hin. lia.
Qed.

Lemma map_fst_combine {A B} (l1 : list A) (l2 : list B) :
  length l1 = length l2 -> map fst (combine l1 l2) = l1.
Proof.
  revert l2; induction l1 as [|a l1 IH]; intros [|b l2] H; simpl in *;
    try reflexivity; try discriminate.
  f_equal. apply IH. lia.
Qed.

Lemma length_range (n : nat) : length (range (Z.of_nat n)) = n.
Proof. unfold range. rewrite length_range2. lia. Qed.

Lemma np_dot_mv_length (W : matrix) (v c : vec) :
  np_dot_mv W v = Ok c -> length c = n_rows W.
Proof.
  unfold np_dot_mv. destruct (Nat.eqb _ _); [|discriminate].
  intros [= <-]. apply length_map.
Qed.

(** C5: in OvA mode, processing training example [data_idx] succeeds on
    a well-shaped object and, for each class [c] in [0..nclasses-1] with
    confidence [x] and weight [w] at [(c, data_idx)]: if [x > 0] and [c]
    is not the true label, a mistake is counted and the weight becomes
    [w - 1]; if [x <= 0] and [c] is the true label, a mistake is counted
    and the weight becomes [w + 1]; otherwise no mistake is counted for
    [c] and row [c] is unchanged.  The returned count is the old one plus
    the number of classes that made a mistake. *)
Theorem ova_mistake_rule (self : Kernel_perceptron) (W K : matrix)
    (mistakes data_idx l : Z) (data_point k confidence : vec)
    (Hmethod : classification_method self = "OvA"%string)
    (HW : classifier self = Some W)
    (Hwf : wf_matrix W)
    (Hrows : Z.of_nat (n_rows W) = nclasses self)
    (Hidx : 0 <= data_idx < Z.of_nat (n_cols W))
    (Hk : getitem (m_rows K) data_idx = Ok k)
    (Hconf : np_dot_mv W k = Ok confidence)
    (Hl : getitem (labels (dataset self)) data_idx = Ok l) :
  exists self' W',
    train_example K mistakes (data_idx, data_point) self
    = (Ok (mistakes + count_fires (ova_rule_at confidence l) (range (nclasses self))),
       self')
    /\ classifier self' = Some W'
    /\ forall c x w,
         0 <= c < nclasses self ->
         getitem confidence c = Ok x ->
         weight W (Z.to_nat c) (Z.to_nat data_idx) = Some w ->
         ((0 <? x)%float = true -> c <> l ->
            fires (ova_rule_at confidence l) c = true
            /\ weight W' (Z.to_nat c) (Z.to_nat data_idx) = Some (w - 1)%float)
         /\ ((x <=? 0)%float = true -> c = l ->
               fires (ova_rule_at confidence l) c = true
               /\ weight W' (Z.to_nat c) (Z.to_nat data_idx) = Some (w + 1)%float)
         /\ (~ ((0 <? x)%float = true /\ c <> l) ->
             ~ ((x <=? 0)%float = true /\ c = l) ->
               fires (ova_rule_at confidence l) c = false
               /\ forall j, weight W' (Z.to_nat c) j = weight W (Z.to_nat c) j)
         /\ (forall j, j <> Z.to_nat data_idx ->
                       weight W' (Z.to_nat c) j = weight W (Z.to_nat c) j).
Proof.
  pose proof (np_dot_mv_length _ _ _ Hconf) as Hlen.
  destruct (row_loop Z (ova_class confidence data_idx) (fun c => c)
              (ova_rule_at confidence l) data_idx (dataset self)
              (range (nclasses self))) with (self := self) (W := W) (mistakes := mistakes)
    as (self' & W' & Hrun & HW' & Hitems & Hrest); try assumption; try reflexivity.
  { apply ova_class_turn; [assumption|].
    intros c Hc. apply in_range2 in Hc.
    destruct (getitem_in_range confidence c) as (x & Hx & _); [lia|]. now exists x. }
  { rewrite map_id. apply NoDup_range2. }
  { intros c Hc. apply in_range2 in Hc. lia. }
  exists self', W'. split; [|split; [assumption|]].
  - unfold train_example, bind, get_self, lift. rewrite HW. cbn [attr].
    rewrite Hk, Hconf, Hmethod. cbn [String.eqb Ascii.eqb Bool.eqb]. exact Hrun.
  - intros c x w Hc Hx Hw.
    assert (Hin : In c (range (nclasses self))) by (apply in_range2; lia).
    specialize (Hitems c w Hin Hw). cbv beta in Hitems.
    unfold fires. unfold ova_rule_at in *. rewrite Hx in *. unfold ova_rule in *.
    split; [|split; [|split]].
    + intros H0 Hne. rewrite H0 in *.
      replace (c =? l) with false in * by lia. cbn [negb andb] in *. now split.
    + intros H0 He. replace (c =? l) with true in * by lia.
      rewrite H0 in *. rewrite andb_false_r in *. cbn [andb] in *. now split.
    + intros N1 N2.
      destruct (0 <? x)%float, (x <=? 0)%float, (Z.eqb_spec c l);
        cbn [negb andb] in *; try (exfalso; tauto);
        (split; [reflexivity|]; intros j;
         destruct (Nat.eq_dec j (Z.to_nat data_idx)) as [->|Hj];
         [congruence | apply Hrest; now right]).
    + intros j Hj. apply Hrest. now right.
Qed.

Lemma ova_mistake_rule_witness :
  exists self' W',
    train_example (Matrix 1 [[1%float]]) 0 (0, [1%float]) Example.ova = (Ok 1, self')
    /\ classifier self' = Some W'
    /\ weight W' 1 0 = Some 1%float
    /\ weight W' 0 0 = Some 0%float.
Proof.
  assert (Hwf : wf_matrix (zeros 2 1)) by (repeat constructor).
  destruct (ova_mistake_rule Example.ova (zeros 2 1) (Matrix 1 [[1%float]])
              0 0 1 [1%float] [1%float] [0%float; 0%float]
              eq_refl eq_refl Hwf eq_refl (conj (Z.le_refl 0) eq_refl)
              eq_refl eq_refl eq_refl)
    as (self' & W' & Hrun & HW' & Hc).
  exists self', W'. split; [exact Hrun|]. split; [exact HW'|]. split.
  - destruct (Hc 1 0%float 0%float) as (_ & H2 & _); try reflexivity;
      [change (0 <= 1 < 2); lia|].
    destruct H2 as [_ H2]; [reflexivity | reflexivity | exact H2].
  - destruct (Hc 0 0%float 0%float) as (_ & _ & H3 & _); try reflexivity;
      [change (0 <= 0 < 2); lia|].
    destruct H3 as [_ H3]; [intros [H _]; discriminate | intros [_ H]; discriminate|].
    exact (H3 0%nat).
Defined.

(** C6: in OvO mode, processing training example [data_idx] succeeds on
    a well-shaped object whose pairs have two distinct classes and, for
    each pair index [p] with pair [(a, b)], confidence [x] and weight [w]
    at [(p, data_idx)]: if the true label is [a] and [x <= 0], a mistake
    is counted and the weight becomes [w + 1]; if the true label is [b]
    and [x > 0], a mistake is counted and the weight becomes [w - 1]; if
    the true label is neither [a] nor [b], or neither case applies, no
    mistake is counted for [p] and row [p] is unchanged. *)
Theorem ovo_mistake_rule (self : Kernel_perceptron) (W K : matrix)
    (pairs : list (Z * Z)) (mistakes data_idx l : Z)
    (data_point k confidence : vec)
    (Hmethod : classification_method self = "OvO"%string)
    (HW : classifier self = Some W)
    (Hpairs : OvO_indices self = Some pairs)
    (Hdistinct : forall a b, In (a, b) pairs -> a <> b)
    (Hwf : wf_matrix W)
    (Hrows : n_rows W = length pairs)
    (Hidx : 0 <= data_idx < Z.of_nat (n_cols W))
    (Hk : getitem (m_rows K) data_idx = Ok k)
    (Hconf : np_dot_mv W k = Ok confidence)
    (Hl : getitem (labels (dataset self)) data_idx = Ok l) :
  exists self' W',
    train_example K mistakes (data_idx, data_point) self
    = (Ok (mistakes + count_fires (ovo_rule_at confidence l) (enumerate pairs)), self')
    /\ classifier self' = Some W'
    /\ forall p a b x w,
         In (p, (a, b)) (enumerate pairs) ->
         getitem confidence p = Ok x ->
         weight W (Z.to_nat p) (Z.to_nat data_idx) = Some w ->
         (l = a -> (x <=? 0)%float = true ->
            fires (ovo_rule_at confidence l) (p, (a, b)) = true
            /\ weight W' (Z.to_nat p) (Z.to_nat data_idx) = Some (w + 1)%float)
         /\ (l = b -> (0 <? x)%float = true ->
               fires (ovo_rule_at confidence l) (p, (a, b)) = true
               /\ weight W' (Z.to_nat p) (Z.to_nat data_idx) = Some (w - 1)%float)
         /\ (l <> a -> l <> b ->
               fires (ovo_rule_at confidence l) (p, (a, b)) = false
               /\ forall j, weight W' (Z.to_nat p) j = weight W (Z.to_nat p) j)
         /\ (~ (l = a /\ (x <=? 0)%float = true) ->
             ~ (l = b /\ (0 <? x)%float = true) ->
               fires (ovo_rule_at confidence l) (p, (a, b)) = false
               /\ forall j, weight W' (Z.to_nat p) j = weight W (Z.to_nat p) j)
         /\ (forall j, j <> Z.to_nat data_idx ->
                       weight W' (Z.to_nat p) j = weight W (Z.to_nat p) j).
Proof.
  pose proof (np_dot_mv_length _ _ _ Hconf) as Hlen.
  assert (Hfst : map fst (enumerate pairs) = range (Z.of_nat (length pairs))).
  { unfold enumerate. apply map_fst_combine. apply length_range. }
  assert (Hp : forall q, In q (enumerate pairs) -> 0 <= fst q < Z.of_nat (length pairs)).
  { intros q Hq. apply (in_map fst) in Hq. rewrite Hfst in Hq.
    now apply in_range2 in Hq. }
  destruct (row_loop _ (ovo_pair confidence data_idx) fst
              (ovo_rule_at confidence l) data_idx (dataset self)
              (enumerate pairs)) with (self := self) (W := W) (mistakes := mistakes)
    as (self' & W' & Hrun & HW' & Hitems & Hrest); try assumption; try reflexivity.
  { apply ovo_pair_turn; [assumption|].
    intros [p [a b]] Hq. split.
    - cbn [fst snd]. apply Hdistinct. unfold enumerate in Hq.
      now apply in_combine_r in Hq.
    - specialize (Hp _ Hq).
      destruct (getitem_in_range confidence (fst (p, (a, b)))) as (x & Hx & _); [lia|].
      now exists x. }
  { rewrite Hfst. apply NoDup_range2. }
  { intros q Hq. rewrite Hrows. now apply Hp. }
  exists self', W'. split; [|split; [assumption|]].
  - unfold train_example, bind, get_self, lift. rewrite HW. cbn [attr].
    rewrite Hk, Hconf, Hmethod. cbn [String.eqb Ascii.eqb Bool.eqb].
    rewrite Hpairs. cbn [attr]. exact Hrun.
  - intros p a b x w Hin Hx Hw.
    pose proof (Hdistinct a b (in_combine_r _ _ _ _ Hin)) as Hab.
    specialize (Hitems (p, (a, b)) w Hin Hw). cbv beta in Hitems. cbn [fst] in Hitems.
    unfold fires. unfold ovo_rule_at in *. cbn [fst snd] in *. rewrite Hx in *.
    unfold ovo_rule in *.
    assert (Hsame : forall (o : option (float -> float)),
               weight W' (Z.to_nat p) (Z.to_nat data_idx)
               = Some (match o with Some f => f w | None => w end) ->
               o = None ->
               forall j, weight W' (Z.to_nat p) j = weight W (Z.to_nat p) j).
    { intros o Ho -> j. destruct (Nat.eq_dec j (Z.to_nat data_idx)) as [->|Hj];
        [congruence | apply (Hrest (Z.to_nat p) j); now right]. }
    split; [|split; [|split; [|split]]].
    + intros -> H0. rewrite Z.eqb_refl, H0 in *. cbn [andb] in *. now split.
    + intros -> H0. replace (a =? b) with false in * by lia.
      rewrite Z.eqb_refl, H0 in *. cbn [andb] in *. now split.
    + intros Ha Hb. replace (a =? l) with false in * by lia.
      replace (b =? l) with false in * by lia. cbn [andb] in *.
      split; [reflexivity|]. now apply (Hsame None).
    + intros N1 N2.
      destruct (Z.eqb_spec a l), (Z.eqb_spec b l), (x <=? 0)%float, (0 <? x)%float;
        cbn [andb] in *; try (exfalso; auto; fail);
        (split; [reflexivity|]; now apply (Hsame None)).
    + intros j Hj. apply (Hrest (Z.to_nat p) j). now right.
Qed.

Lemma ovo_mistake_rule_witness :
  exists self' W',
    train_example (Matrix 1 [[1%float]]) 0 (0, [1%float]) Example.ovo = (Ok 1, self')
    /\ classifier self' = Some W'
    /\ weight W' 2 0 = Some 1%float
    /\ weight W' 1 0 = Some 0%float.
Proof.
  assert (Hwf : wf_matrix (zeros 3 1)) by (repeat constructor).
  assert (Hdistinct : forall a b, In (a, b) [(0, 1); (0, 2); (1, 2)] -> a <> b).
  { intros a b [H|[H|[H|[]]]]; injection H as <- <-; discriminate. }
  destruct (ovo_mistake_rule Example.ovo (zeros 3 1) (Matrix 1 [[1%float]])
              [(0, 1); (0, 2); (1, 2)] 0 0 1 [1%float] [1%float]
              [0%float; 0%float; 0%float]
              eq_refl eq_refl eq_refl Hdistinct Hwf eq_refl
              (conj (Z.le_refl 0) eq_refl) eq_refl eq_refl eq_refl)
    as (self' & W' & Hrun & HW' & Hp).
  exists self', W'. split; [exact Hrun|]. split; [exact HW'|]. split.
  - destruct (Hp 2 1 2 0%float 0%float) as (H1 & _); try reflexivity;
      [right; right; left; reflexivity|].
    destruct H1 as [_ H1]; [reflexivity | reflexivity | exact H1].
  - destruct (Hp 1 0 2 0%float 0%float) as (_ & _ & H3 & _); try reflexivity;
      [right; left; reflexivity|].
    destruct H3 as [_ H3]; [discriminate | discriminate|].
    exact (H3 0%nat).
Defined.

(** ** The weight matrix over the life of the object *)

(** C9: a constructed object has an all-zero weight matrix and no
    recorded mistake; processing training example [data_idx] leaves the
    shape of the matrix and every column other than [data_idx] as they
    were, whether it returns or raises; so every weight other than zero
    sits in the column of an example at which a mistake was counted, and
    this holds after every example, and after [train] however it ends;
    [train] never changes the shape of the matrix; [predict],
    [test_error], [confusion_matrix] and [count_mistake_vec] leave the
    object unchanged. *)
Theorem classifier_state_invariant :
  (forall ds ts tri tei k km kp method self W,
      __init__ ds ts tri tei k km kp method = Ok self ->
      classifier self = Some W ->
      triggered self = []
      /\ forall r c x, weight W r c = Some x -> x = 0%float)
  /\ (forall ds ts tri tei k km kp method self,
         __init__ ds ts tri tei k km kp method = Ok self -> nonzero_triggered self)
  /\ (forall K mistakes data_idx data_point self,
         0 <= data_idx ->
         same_off_column data_idx self
           (snd (train_example K mistakes (data_idx, data_point) self)))
  /\ (forall K mistakes data_idx data_point self,
         0 <= data_idx ->
         nonzero_triggered self ->
         nonzero_triggered (snd (train_example K mistakes (data_idx, data_point) self)))
  /\ (forall max_epochs epsilon self,
         nonzero_triggered self ->
         nonzero_triggered (snd (train max_epochs epsilon self)))
  /\ (forall max_epochs epsilon self,
         same_shape self (snd (train max_epochs epsilon self)))
  /\ (forall points self, snd (predict points self) = self)
  /\ (forall self, snd (test_error self) = self)
  /\ (forall self, snd (confusion_matrix self) = self)
  /\ (forall self, snd (count_mistake_vec self) = self).
Proof.
  assert (Hinit : forall ds ts tri tei k km kp method self W,
             __init__ ds ts tri tei k km kp method = Ok self ->
             classifier self = Some W ->
             triggered self = []
             /\ forall r c x, weight W r c = Some x -> x = 0%float).
  { intros ds ts tri tei k km kp method self W Hi HW.
    destruct (init_classifier _ _ _ _ _ _ _ _ _ _ Hi HW) as (Ht & r0 & c0 & ->).
    split; [assumption|]. intros r c x. apply weight_zeros. }
  split; [exact Hinit|]. split; [|split; [|split; [|split; [|split]]]].
  - intros ds ts tri tei k km kp method self Hi W r c x HW Hw Hx.
    destruct (Hinit _ _ _ _ _ _ _ _ _ _ Hi HW) as [_ Hz].
    exfalso. apply Hx. now apply (Hz r c).
  - intros K m idx pt self Hidx.
    apply (stable_train_example (same_off_column idx)
             (same_off_column_refl idx) (same_off_column_trans idx)).
    intros. now apply same_off_column_update.
  - intros K m idx pt self Hidx.
    apply (stable_train_example keeps_nonzero_triggered
             keeps_nonzero_triggered_refl keeps_nonzero_triggered_trans).
    intros. now apply keeps_nonzero_triggered_update.
  - intros max_epochs epsilon self.
    apply (stable_train keeps_nonzero_triggered
             keeps_nonzero_triggered_refl keeps_nonzero_triggered_trans).
    intros. now apply keeps_nonzero_triggered_update.
  - intros max_epochs epsilon self.
    apply (stable_train same_shape same_shape_refl same_shape_trans).
    intros. apply same_shape_update.
  - repeat split; intros.
    + symmetry. apply readonly_predict.
    + symmetry. apply readonly_test_error.
    + symmetry. apply readonly_confusion_matrix.
    + symmetry. apply readonly_count_mistake_vec.
Qed.

Lemma classifier_state_invariant_witness :
  nonzero_triggered Example.ova
  /\ nonzero_triggered Example.ova_trained
  /\ snd (predict [] Example.ova_trained) = Example.ova_trained.
Proof.
  destruct classifier_state_invariant as (_ & Hinit & _ & _ & Htrain & _ & Hpredict & _).
  assert (H0 : nonzero_triggered Example.ova).
  { apply (Hinit Example.train_set Example.held_out [0] [1; 2; 3; 4] 2
                 Example.km 1%float "OvA"%string). reflexivity. }
  split; [exact H0|]. split.
  - apply (Htrain 5 0x1.4f8b588e368f1p-17%float Example.ova H0).
  - apply Hpredict.
Defined.

(** ** The stopping rule *)

Lemma train_spec_sound (K : matrix) (eps : float) (n : nat) (p1 p2 : float)
    (last : option float) (self : Kernel_perceptron)
    (out : result float * Kernel_perceptron) :
  train_spec K eps n p1 p2 last self out ->
  train_loop n K eps p1 p2 last self = out.
Proof.
  induction 1 as [n p1 p2 last self tr te self1 He Hstop
                 |n p1 p2 last self tr te self1 out He H1 H2 _ IH
                 |p1 p2 tr self
                 |n p1 p2 last self e self1 He];
    cbn [train_loop]; unfold bind; try rewrite He.
  - destruct Hstop as [-> | ->]; [reflexivity | now rewrite orb_true_r].
  - rewrite H1, H2. exact IH.
  - reflexivity.
  - reflexivity.
Qed.

Lemma train_spec_complete (K : matrix) (eps : float) (n : nat) (p1 p2 : float)
    (last : option float) (self : Kernel_perceptron) :
  (n = O -> last <> None) ->
  train_spec K eps n p1 p2 last self (train_loop n K eps p1 p2 last self).
Proof.
  revert p1 p2 last self; induction n as [|n IH]; intros p1 p2 last self Hlast.
  - destruct last as [tr|]; [apply train_spec_exhausted | now destruct Hlast].
  - cbn [train_loop]. unfold bind.
    destruct (epoch K self) as [[[tr te]|e] self1] eqn:He.
    + destruct (p1 - tr <? eps)%float eqn:H1.
      * eapply train_spec_stop; [exact He | now left].
      * destruct (p2 + 1e3 * eps <? te)%float eqn:H2.
        -- eapply train_spec_stop; [exact He | now right].
        -- eapply train_spec_continue; try eassumption.
           apply IH. discriminate.
    + now apply train_spec_raises.
Qed.

(** C2: for at least one epoch, [train] ends exactly as the stopping rule
    says, starting from the baselines [+infinity]: after each epoch it
    returns that epoch's [train_error] if [prev_train_error - train_error
    < tolerance] or [test_error > prev_test_error + 1000 * tolerance],
    otherwise it takes the new errors as baseline and goes on, and when
    [max_epochs] epochs have passed it returns the last [train_error]. *)
Theorem train_stopping_rule (max_epochs : Z) (epsilon : float)
    (self : Kernel_perceptron) (K : matrix)
    (Hpos : 0 < max_epochs)
    (HK : take_block (kernel_mtx self) (train_indices self) (train_indices self) = Ok K)
    (out : result float * Kernel_perceptron) :
  train_spec K epsilon (Z.to_nat max_epochs) infinity infinity None self out
  <-> train max_epochs epsilon self = out.
Proof.
  assert (Ht : train max_epochs epsilon self
               = train_loop (Z.to_nat max_epochs) K epsilon infinity infinity None self).
  { unfold train, bind, get_self, lift. now rewrite HK. }
  rewrite Ht. split.
  - apply train_spec_sound.
  - intros <-. apply train_spec_complete. lia.
Qed.

Lemma train_stopping_rule_witness :
  0 < 5
  /\ take_block (kernel_mtx Example.ova) (train_indices Example.ova)
                (train_indices Example.ova) = Ok (Matrix 1 [[1%float]])
  /\ train_spec (Matrix 1 [[1%float]]) 0x1.4f8b588e368f1p-17%float 5
                infinity infinity None Example.ova
                (Ok 0%float, Example.ova_trained).
Proof.
  split; [lia|]. split; [reflexivity|].
  apply (train_stopping_rule 5 0x1.4f8b588e368f1p-17%float Example.ova
                             (Matrix 1 [[1%float]]));
    [lia | reflexivity | vm_compute; reflexivity].
Defined.

(** * Further properties of the methods *)

(** ** What [train] leaves alone *)

Lemma same_attributes_refl (s : Kernel_perceptron) : same_attributes s s.
Proof. unfold same_attributes. tauto. Qed.

Lemma same_attributes_trans (s1 s2 s3 : Kernel_perceptron) :
  same_attributes s1 s2 -> same_attributes s2 s3 -> same_attributes s1 s3.
Proof.
  unfold same_attributes. intros H1 H2.
  decompose [and] H1. decompose [and] H2. repeat split; congruence.
Qed.

Lemma same_attributes_update (data_idx mistakes r : Z) (f : float -> float) :
  stable same_attributes (mistake_update data_idx mistakes r f).
Proof.
  intros self. rewrite snd_mistake_update. unfold bump, same_attributes.
  destruct (W <~ attr (classifier self) ;; mupdate W r data_idx f);
    cbn; tauto.
Qed.

Lemma train_same_attributes (max_epochs : Z) (epsilon : float)
    (self : Kernel_perceptron) :
  same_attributes self (snd (train max_epochs epsilon self)).
Proof.
  apply (stable_train same_attributes same_attributes_refl same_attributes_trans).
  intros. apply same_attributes_update.
Qed.

(** [train] changes the weights and nothing else: the datasets, the
    number of classes, the kernel matrix and its index maps, the kernel
    parameter, the method, the pair index and [kernel_func] are the same
    after [train] as before, whether [train] returns or raises. *)
Theorem train_keeps_attributes (max_epochs : Z) (epsilon : float)
    (self : Kernel_perceptron) :
  same_attributes self (snd (train max_epochs epsilon self)).
Proof.
  apply (stable_train same_attributes same_attributes_refl same_attributes_trans).
  intros data_idx mistakes r f _. apply same_attributes_update.
Qed.

Lemma init_fields (ds ts : LabelledDataset) (tri tei : list Z) (k : Z)
    (km : matrix) (kp : float) (method : string) (self : Kernel_perceptron) :
  __init__ ds ts tri tei k km kp method = Ok self ->
  dataset self = ds /\ test_set self = ts /\ nclasses self = k
  /\ kernel_mtx self = km /\ train_indices self = tri /\ test_indices self = tei
  /\ classification_method self = method /\ kernel_func self = None.
Proof.
  unfold __init__.
  destruct (String.eqb method "OvA"); [|destruct (String.eqb method "OvO")].
  - destruct (np_zeros _ _); cbn [bindR]; [|discriminate].
    intros [= <-]. cbn. tauto.
  - destruct (np_zeros _ _); cbn [bindR]; [|discriminate].
    intros [= <-]. cbn. tauto.
  - intros [= <-]. cbn. tauto.
Qed.

(** ** [kernel_output] on the objects the class builds *)

(** No object the constructor returns can evaluate a kernel: whatever
    the two point sets, [kernel_output] raises [AttributeError], because
    [kernel_func] is assigned nowhere; training does not change that. *)
Theorem kernel_output_unusable (ds ts : LabelledDataset) (tri tei : list Z) (k : Z)
    (km : matrix) (kp : float) (method : string) (self : Kernel_perceptron)
    (np_power : float -> float -> float) (np_exp : float -> float)
    (x1 x2 : matrix)
    (Hinit : __init__ ds ts tri tei k km kp method = Ok self) :
  kernel_output np_power np_exp x1 x2 self = (Raise AttributeError, self)
  /\ forall max_epochs epsilon,
       fst (kernel_output np_power np_exp x1 x2 (snd (train max_epochs epsilon self)))
       = Raise AttributeError.
Proof.
  destruct (init_fields _ _ _ _ _ _ _ _ _ Hinit) as (_ & _ & _ & _ & _ & _ & _ & Hkf).
  split.
  - unfold kernel_output, bind, get_self, lift. now rewrite Hkf.
  - intros max_epochs epsilon.
    pose proof (train_same_attributes max_epochs epsilon self) as Hsame.
    unfold same_attributes in Hsame. decompose [and] Hsame.
    unfold kernel_output, bind, get_self, lift.
    replace (kernel_func (snd (train max_epochs epsilon self))) with (@None string)
      by congruence.
    reflexivity.
Qed.

Lemma kernel_output_unusable_witness :
  __init__ Example.train_set Example.held_out [0] [1; 2; 3; 4] 2 Example.km 1%float "OvA"
  = Ok Example.ova
  /\ kernel_output (fun x _ => x) (fun x => x) Example.x1 Example.x2 Example.ova
     = (Raise AttributeError, Example.ova)
  /\ forall max_epochs epsilon,
       fst (kernel_output (fun x _ => x) (fun x => x) Example.x1 Example.x2
                          (snd (train max_epochs epsilon Example.ova)))
       = Raise AttributeError.
Proof.
  split; [reflexivity|].
  exact (kernel_output_unusable Example.train_set Example.held_out [0] [1; 2; 3; 4] 2
           Example.km 1%float "OvA"%string Example.ova (fun x _ => x) (fun x => x)
           Example.x1 Example.x2 eq_refl).
Defined.

(** ** Edge cases of [train] *)

(** With no epoch to run, [train] has no [train_error] to return: for
    [max_epochs <= 0] it raises [UnboundLocalError] and leaves the object
    as it was. *)
Theorem train_without_epochs (max_epochs : Z) (epsilon : float)
    (self : Kernel_perceptron) (K : matrix)
    (Hmax : max_epochs <= 0)
    (HK : take_block (kernel_mtx self) (train_indices self) (train_indices self) = Ok K) :
  train max_epochs epsilon self = (Raise UnboundLocalError, self).
Proof.
  unfold train, bind, get_self, lift. rewrite HK.
  replace (Z.to_nat max_epochs) with O by lia. reflexivity.
Qed.

Lemma train_without_epochs_witness :
  0 <= 0
  /\ take_block (kernel_mtx Example.ova) (train_indices Example.ova)
                (train_indices Example.ova) = Ok (Matrix 1 [[1%float]])
  /\ train 0 0x1.4f8b588e368f1p-17%float Example.ova
     = (Raise UnboundLocalError, Example.ova).
Proof.
  split; [lia|]. split; [reflexivity|].
  apply (train_without_epochs 0 0x1.4f8b588e368f1p-17%float Example.ova
                              (Matrix 1 [[1%float]])); [lia | reflexivity].
Defined.

(** On a training set without points that announces size 0, the first
    epoch divides zero mistakes by zero: [train] raises
    [ZeroDivisionError] and leaves the object as it was. *)
Theorem train_empty_training_set (max_epochs : Z) (epsilon : float)
    (self : Kernel_perceptron) (K : matrix)
    (Hmax : 0 < max_epochs)
    (Hdata : data (dataset self) = [])
    (Hsize : size (dataset self) = 0)
    (HK : take_block (kernel_mtx self) (train_indices self) (train_indices self) = Ok K) :
  train max_epochs epsilon self = (Raise ZeroDivisionError, self).
Proof.
  unfold train, bind, get_self, lift. rewrite HK.
  destruct (Z.to_nat max_epochs) as [|n] eqn:En; [lia|].
  cbn [train_loop]. unfold bind, epoch, bind, get_self, lift.
  rewrite Hdata, Hsize. reflexivity.
Qed.

Lemma train_empty_training_set_witness :
  0 < 5
  /\ data (dataset Edge.empty_training) = []
  /\ size (dataset Edge.empty_training) = 0
  /\ train 5 0x1.4f8b588e368f1p-17%float Edge.empty_training
     = (Raise ZeroDivisionError, Edge.empty_training).
Proof.
  split; [lia|]. split; [reflexivity|]. split; [reflexivity|].
  apply (train_empty_training_set 5 0x1.4f8b588e368f1p-17%float Edge.empty_training
                                  (Matrix 0 [])); [lia | reflexivity..].
Defined.

Lemma enumerate_cons {A} (a : A) (l : list A) :
  exists tl, enumerate (a :: l) = (0, a) :: tl.
Proof.
  unfold enumerate, range, range2.
  rewrite Z.sub_0_r, Nat2Z.id. cbn [length seq map combine].
  eexists. reflexivity.
Qed.

(** [train] needs one weight column per training index: when the
    training set has a point and the weight matrix has a number of
    columns ([dataset.size] at construction) other than the number of
    training indices, the first example fails in [np.dot] and [train]
    raises [ValueError] before any weight is written. *)
Theorem train_shape_mismatch (max_epochs : Z) (epsilon : float)
    (self : Kernel_perceptron) (W K : matrix) (p : vec) (rest : list vec)
    (Hmax : 0 < max_epochs)
    (HW : classifier self = Some W)
    (HK : take_block (kernel_mtx self) (train_indices self) (train_indices self) = Ok K)
    (Hdata : data (dataset self) = p :: rest)
    (Htri : train_indices self <> [])
    (Hcols : n_cols W <> length (train_indices self)) :
  train max_epochs epsilon self = (Raise ValueError, self).
Proof.
  unfold train, bind, get_self, lift. rewrite HK.
  destruct (Z.to_nat max_epochs) as [|n] eqn:En; [lia|].
  cbn [train_loop]. unfold bind, epoch, bind, get_self.
  rewrite Hdata. destruct (enumerate_cons p rest) as [tl ->].
  cbn [for_each]. unfold bind, train_example, bind, get_self, lift.
  rewrite HW. cbn [attr].
  destruct (take_block_shape _ _ _ _ HK) as (_ & Hrows & Hlen).
  destruct (getitem_in_range (m_rows K) 0) as (k & -> & Hk).
  { unfold n_rows in Hrows. rewrite Hrows.
    destruct (train_indices self); [congruence | simpl; lia]. }
  rewrite Forall_forall in Hlen. apply nth_error_In, Hlen in Hk.
  unfold np_dot_mv. rewrite Hk.
  destruct (Nat.eqb_spec (n_cols W) (length (train_indices self))); [congruence|].
  reflexivity.
Qed.

Lemma train_shape_mismatch_witness :
  0 < 5
  /\ classifier Edge.mismatched = Some (zeros 2 2)
  /\ train_indices Edge.mismatched = [0]
  /\ train 5 0x1.4f8b588e368f1p-17%float Edge.mismatched
     = (Raise ValueError, Edge.mismatched).
Proof.
  split; [lia|]. split; [reflexivity|]. split; [reflexivity|].
  apply (train_shape_mismatch 5 0x1.4f8b588e368f1p-17%float Edge.mismatched
                              (zeros 2 2) (Matrix 1 [[1%float]]) [1%float] []);
    [lia | reflexivity | reflexivity | reflexivity | discriminate | discriminate].
Defined.

(** ** Indices outside the kernel matrix *)

Lemma mget_error (A : matrix) (r c : Z) (e : exn) :
  mget A r c = Raise e -> e = IndexError.
Proof.
  unfold mget, getitem, norm_index.
  repeat match goal with
         | |- context [if ?b then _ else _] => destruct b; cbn [bindR]
         | |- context [match nth_error ?l ?k with _ => _ end] =>
             destruct (nth_error l k); cbn [bindR]
         end; congruence.
Qed.

Lemma mapR_error {A B} (f : A -> result B) (l : list A) (e : exn) :
  mapR f l = Raise e -> exists a, In a l /\ f a = Raise e.
Proof.
  induction l as [|a l IH]; cbn [mapR]; [discriminate|].
  destruct (f a) as [b|e'] eqn:Ea; cbn [bindR].
  - destruct (mapR f l) as [bs|e'] eqn:El; cbn [bindR]; [discriminate|].
    intros [= ->]. destruct (IH eq_refl) as (a' & Hin & Ha'). exists a'.
    split; [now right | assumption].
  - intros [= ->]. exists a. split; [now left | assumption].
Qed.

Lemma mapR_ok_all {A B} (f : A -> result B) (l : list A) (bs : list B) :
  mapR f l = Ok bs -> forall a, In a l -> exists b, f a = Ok b.
Proof.
  revert bs; induction l as [|a l IH]; intros bs; cbn [mapR]; [intros _ a []|].
  destruct (f a) as [b|] eqn:Ea; cbn [bindR]; [|discriminate].
  destruct (mapR f l) as [bs'|] eqn:El; cbn [bindR]; [|discriminate].
  intros _ a' [<-|Hin]; [now exists b | now apply (IH bs')].
Qed.

Lemma take_block_error (A : matrix) (rows cols : list Z) (e : exn) :
  take_block A rows cols = Raise e -> e = IndexError.
Proof.
  unfold take_block.
  destruct (mapR _ rows) as [rs|e'] eqn:E; cbn [bindR]; [discriminate|].
  intros [= ->]. apply mapR_error in E as (r & _ & Hr).
  apply mapR_error in Hr as (c & _ & Hc). now apply mget_error in Hc.
Qed.

Lemma take_block_out_of_range (A : matrix) (rows cols : list Z) (t : Z) :
  In t rows -> cols <> [] ->
  ~ (- Z.of_nat (n_rows A) <= t < Z.of_nat (n_rows A)) ->
  take_block A rows cols = Raise IndexError.
Proof.
  intros Ht Hcols Hout.
  destruct (take_block A rows cols) as [K|e] eqn:E.
  - exfalso. unfold take_block in E.
    destruct (mapR _ rows) as [rs|] eqn:Er; cbn [bindR] in E; [|discriminate].
    destruct (mapR_ok_all _ _ _ Er t Ht) as [row Hrow]. cbv beta in Hrow.
    destruct cols as [|c cols]; [congruence|].
    destruct (mapR_ok_all _ _ _ Hrow c (or_introl eq_refl)) as [x Hx].
    unfold mget, getitem in Hx.
    destruct (norm_index (length (m_rows A)) t) as [i|] eqn:Ei; [|discriminate].
    unfold norm_index, n_rows in *.
    destruct ((0 <=? t) && (t <? Z.of_nat (length (m_rows A)))) eqn:E1; [lia|].
    destruct ((- Z.of_nat (length (m_rows A)) <=? t) && (t <? 0)) eqn:E2;
      [lia | discriminate].
  - f_equal. now apply take_block_error in E.
Qed.

(** A training index outside the rows of the kernel matrix, that is
    outside [[-rows, rows)], makes [train] raise [IndexError] on its
    first line, before any epoch and with the object unchanged; so does
    [predict] when there is at least one test index. *)
Theorem index_outside_kernel_matrix (self : Kernel_perceptron) (t : Z)
    (Ht : In t (train_indices self))
    (Hout : ~ (- Z.of_nat (n_rows (kernel_mtx self)) <= t
               < Z.of_nat (n_rows (kernel_mtx self)))) :
  (forall max_epochs epsilon,
      train max_epochs epsilon self = (Raise IndexError, self))
  /\ (forall points,
         test_indices self <> [] ->
         predict points self = (Raise IndexError, self)).
Proof.
  split.
  - intros max_epochs epsilon. unfold train, bind, get_self, lift.
    rewrite (take_block_out_of_range _ _ _ t Ht); [reflexivity | | assumption].
    intros E. now rewrite E in Ht.
  - intros points Hte. unfold predict, bind, get_self, lift.
    now rewrite (take_block_out_of_range _ _ _ t Ht Hte Hout).
Qed.

Lemma index_outside_kernel_matrix_witness :
  In 7 (train_indices Edge.out_of_range)
  /\ train 5 0x1.4f8b588e368f1p-17%float Edge.out_of_range
     = (Raise IndexError, Edge.out_of_range)
  /\ predict [] Edge.out_of_range = (Raise IndexError, Edge.out_of_range).
Proof.
  assert (Hin : In 7 (train_indices Edge.out_of_range)) by (left; reflexivity).
  assert (Hout : ~ (- Z.of_nat (n_rows (kernel_mtx Edge.out_of_range)) <= 7
                    < Z.of_nat (n_rows (kernel_mtx Edge.out_of_range))))
    by (change (~ (- 5 <= 7 < 5)); lia).
  destruct (index_outside_kernel_matrix Edge.out_of_range 7 Hin Hout) as [Htrain Hpredict].
  split; [exact Hin|]. split; [apply Htrain|].
  apply Hpredict. discriminate.
Defined.

(** ** An unknown method *)

(** The constructor accepts a method string it does not know, but the
    object it returns has no weight matrix: [predict] raises
    [AttributeError] whenever its kernel lookups succeed, and so does
    [train] as soon as there is an epoch to run and a training point to
    process; neither changes the object. *)
Theorem unknown_method_unusable (ds ts : LabelledDataset) (tri tei : list Z) (k : Z)
    (km : matrix) (kp : float) (method : string) (self : Kernel_perceptron)
    (Hova : String.eqb method "OvA" = false)
    (Hovo : String.eqb method "OvO" = false)
    (Hinit : __init__ ds ts tri tei k km kp method = Ok self) :
  classifier self = None
  /\ (forall points K,
         take_block km tri tei = Ok K ->
         predict points self = (Raise AttributeError, self))
  /\ (forall max_epochs epsilon K p rest,
         0 < max_epochs ->
         take_block km tri tri = Ok K ->
         data ds = p :: rest ->
         train max_epochs epsilon self = (Raise AttributeError, self)).
Proof.
  assert (HW : classifier self = None).
  { unfold __init__ in Hinit. rewrite Hova, Hovo in Hinit. now injection Hinit as <-. }
  destruct (init_fields _ _ _ _ _ _ _ _ _ Hinit)
    as (Hds & _ & _ & Hkm & Htri & Htei & _).
  split; [exact HW|]. split.
  - intros points K HK. unfold predict, bind, get_self, lift.
    rewrite Hkm, Htri, Htei, HK, HW. reflexivity.
  - intros max_epochs epsilon K p rest Hmax HK Hdata.
    unfold train, bind, get_self, lift. rewrite Hkm, Htri, HK.
    destruct (Z.to_nat max_epochs) as [|n] eqn:En; [lia|].
    cbn [train_loop]. unfold bind, epoch, bind, get_self.
    rewrite Hds, Hdata. destruct (enumerate_cons p rest) as [tl ->].
    cbn [for_each]. unfold bind, train_example, bind, get_self, lift.
    rewrite HW. reflexivity.
Qed.

Lemma unknown_method_unusable_witness :
  classifier Edge.one_vs_rest = None
  /\ predict [] Edge.one_vs_rest = (Raise AttributeError, Edge.one_vs_rest)
  /\ train 5 0x1.4f8b588e368f1p-17%float Edge.one_vs_rest
     = (Raise AttributeError, Edge.one_vs_rest).
Proof.
  destruct (unknown_method_unusable Example.train_set Example.held_out [0] [1; 2; 3; 4] 2
              Example.km 1%float "OvR"%string Edge.one_vs_rest
              eq_refl eq_refl eq_refl) as (HW & Hpredict & Htrain).
  split; [exact HW|]. split.
  - apply (Hpredict [] (Matrix 4 [[1; -1; -1; 1]]%float)). reflexivity.
  - apply (Htrain 5 0x1.4f8b588e368f1p-17%float (Matrix 1 [[1%float]]) [1%float] []);
      [lia | reflexivity | reflexivity].
Defined.

(** ** From construction to prediction *)

Lemma wf_zeros (r c : nat) : wf_matrix (zeros r c) /\ n_rows (zeros r c) = r.
Proof.
  unfold wf_matrix, n_rows, zeros. cbn [m_rows n_cols]. split.
  - apply Forall_forall. intros row Hrow. apply repeat_spec in Hrow. subst row.
    apply repeat_length.
  - apply repeat_length.
Qed.

Lemma init_shape (ds ts : LabelledDataset) (tri tei : list Z) (k : Z)
    (km : matrix) (kp : float) (method : string) (self : Kernel_perceptron)
    (W : matrix) :
  __init__ ds ts tri tei k km kp method = Ok self ->
  classifier self = Some W ->
  wf_matrix W /\ Z.of_nat (n_cols W) = size ds
  /\ ((method = "OvA"%string /\ Z.of_nat (n_rows W) = k /\ OvO_indices self = None)
      \/ (method = "OvO"%string /\ Z.of_nat (n_rows W) = k * (k - 1) / 2
          /\ OvO_indices self = Some (build_OvO_indices k))).
Proof.
  unfold __init__, np_zeros.
  destruct (String.eqb_spec method "OvA") as [->|Hova].
  - destruct (_ || _) eqn:Eneg; cbn [bindR]; [discriminate|].
    intros [= <-]. cbn. intros [= <-].
    destruct (wf_zeros (Z.to_nat k) (Z.to_nat (size ds))) as [Hwf Hr].
    split; [exact Hwf|]. split; [cbn; lia|]. left. rewrite Hr. repeat split. lia.
  - destruct (String.eqb_spec method "OvO") as [->|Hovo].
    + destruct (_ || _) eqn:Eneg; cbn [bindR]; [discriminate|].
      intros [= <-]. cbn. intros [= <-].
      destruct (wf_zeros (Z.to_nat (k * (k - 1) / 2)) (Z.to_nat (size ds))) as [Hwf Hr].
      split; [exact Hwf|]. split; [cbn; lia|]. right. rewrite Hr. repeat split. lia.
    + intros [= <-]. discriminate.
Qed.

Lemma length_build_OvO_indices (k : Z) :
  0 < k -> Z.of_nat (length (build_OvO_indices k)) = k * (k - 1) / 2.
Proof.
  intros Hk. rewrite build_OvO_indices_spec.
  destruct (Z.eq_dec k 1) as [->|Hne]; [reflexivity|].
  apply length_pair_index_spec. lia.
Qed.

(** Construction, any amount of training and prediction fit together:
    for a known method, at least one class, as many training indices as
    [dataset.size] and kernel lookups in range, the object is one that
    [predict] can read after every [train], however [train] ended; so
    [predict] then returns one label in [[0, nclasses)] per test index
    and changes nothing. *)
Theorem trained_object_predicts (ds ts : LabelledDataset) (tri tei : list Z) (k : Z)
    (km K : matrix) (kp : float) (method : string) (self : Kernel_perceptron)
    (W0 : matrix) (max_epochs : Z) (epsilon : float) (points : list vec)
    (Hinit : __init__ ds ts tri tei k km kp method = Ok self)
    (HW0 : classifier self = Some W0)
    (Hk : 0 < k)
    (Hsize : size ds = Z.of_nat (length tri))
    (HK : take_block km tri tei = Ok K) :
  let trained := snd (train max_epochs epsilon self) in
  predict_ready trained
  /\ exists labels,
       predict points trained = (Ok (Decisions labels), trained)
       /\ length labels = length tei
       /\ Forall (fun d => 0 <= d < k) labels.
Proof.
  intros trained.
  destruct (init_fields _ _ _ _ _ _ _ _ _ Hinit)
    as (Hds & _ & Hnc & Hkm & Htri & Htei & Hmeth & _).
  destruct (init_shape _ _ _ _ _ _ _ _ _ _ Hinit HW0) as (Hwf0 & Hc0 & Hmode).
  pose proof (train_same_attributes max_epochs epsilon self) as Hsame.
  fold trained in Hsame. unfold same_attributes in Hsame.
  destruct Hsame as (_ & _ & Hnc' & Hkm' & Htri' & Htei' & _ & Hmeth' & Hpairs' & _).
  pose proof (stable_train same_shape same_shape_refl same_shape_trans
                (fun d m r f _ => same_shape_update d m r f)
                max_epochs epsilon self) as Hshape.
  fold trained in Hshape. unfold same_shape in Hshape. rewrite HW0 in Hshape.
  destruct (classifier trained) as [W|] eqn:HW; [|contradiction].
  destruct Hshape as (Hc & Hr & _).
  destruct (take_block_shape _ _ _ _ HK) as (_ & HrK & _).
  assert (Hready : predict_ready trained).
  { exists K, W. rewrite Hkm', Htri', Htei', Hkm, Htri, Htei.
    split; [exact HK|]. split; [exact HW|]. split; [lia|].
    rewrite Hmeth', Hnc', Hmeth, Hnc, Hr.
    destruct Hmode as [(-> & Hrows & _) | (-> & Hrows & Hp)].
    - left. repeat split; assumption.
    - right. split; [reflexivity|]. split; [assumption|].
      exists (build_OvO_indices k). rewrite Hpairs'. split; [exact Hp|]. split.
      + pose proof (length_build_OvO_indices k Hk). lia.
      + intros a b Hab. rewrite build_OvO_indices_spec in Hab.
        apply in_pair_index_spec in Hab. lia. }
  split; [exact Hready|].
  destruct (predict_returns trained points Hready) as [labels Hp].
  exists labels. split; [exact Hp|].
  destruct (predict_labels_if_returned trained trained points labels) as [Hlen Hall];
    [|exact Hp|].
  - intros W' Hm HW'. rewrite HW in HW'. injection HW' as <-.
    destruct Hready as (_ & W'' & _ & HW'' & _ & Hmode').
    rewrite HW in HW''. injection HW'' as <-.
    destruct Hmode' as [(_ & _ & Hrows) | (Hm' & _)]; [assumption|].
    rewrite Hm in Hm'. discriminate.
  - split; [now rewrite Hlen, Htei', Htei|]. now rewrite <- Hnc, <- Hnc'.
Qed.

Lemma trained_object_predicts_witness :
  predict_ready Example.ovo_trained
  /\ exists labels,
       predict [] Example.ovo_trained = (Ok (Decisions labels), Example.ovo_trained)
       /\ length labels = length [1; 2; 3; 4]
       /\ Forall (fun d => 0 <= d < 3) labels.
Proof.
  apply (trained_object_predicts Example.train_set Example.held_out [0] [1; 2; 3; 4] 3
           Example.km (Matrix 4 [[1; -1; -1; 1]]%float) 1%float "OvO"%string
           Example.ovo (zeros 3 1) 5 0x1.4f8b588e368f1p-17%float []);
    [reflexivity | reflexivity | lia | reflexivity | reflexivity].
Defined.

(** ** The evaluation utilities *)

Lemma getitem_In {A} (l : list A) (i : Z) (a : A) : getitem l i = Ok a -> In a l.
Proof.
  unfold getitem. destruct (norm_index _ _) as [k|]; cbn [bindR]; [|discriminate].
  destruct (nth_error l k) eqn:E; [|discriminate].
  intros [= <-]. eapply nth_error_In, E.
Qed.

(** What the loop of [confusion_matrix] keeps: the shape of the count
    matrix and, for labels and predictions that are not negative, a
    diagonal of zeros. *)
Lemma confusion_loop (labels : list Z) (preds : list (Z * Z)) (n : nat)
    (conf0 conf : matrix) :
  foldR (fun conf_mtx (q : Z * Z) =>
           let '(idx, pred) := q in
           y <~ getitem labels idx ;;
           if negb (pred =? y)
           then mupdate conf_mtx y pred (fun x => (x + 1)%float)
           else Ok conf_mtx)
        preds conf0 = Ok conf ->
  n_cols conf0 = n -> n_rows conf0 = n ->
  n_cols conf = n /\ n_rows conf = n
  /\ (Forall (fun y => 0 <= y) labels ->
      Forall (fun q => 0 <= snd q) preds ->
      (forall r x, weight conf0 r r = Some x -> x = 0%float) ->
      forall r x, weight conf r r = Some x -> x = 0%float).
Proof.
  intros Hfold Hc0 Hr0.
  assert (Hshape : n_cols conf = n /\ n_rows conf = n).
  { eapply (foldR_invariant _ (fun c => n_cols c = n /\ n_rows c = n));
      [| |exact Hfold]; [|now split].
    intros c [idx pred] c' _ [Hc Hr].
    destruct (getitem labels idx) as [y|]; cbn [bindR]; [|discriminate].
    destruct (negb (pred =? y)); [|now intros [= <-]].
    intros Hu. destruct (mupdate_shape _ _ _ _ _ Hu) as (Hc' & Hr' & _).
    split; congruence. }
  destruct Hshape as [Hc Hr]. split; [exact Hc|]. split; [exact Hr|].
  intros Hlabels Hpreds Hdiag0.
  eapply (foldR_invariant _ (fun c => forall r x, weight c r r = Some x -> x = 0%float));
    [| |exact Hfold]; [|exact Hdiag0].
  intros c [idx pred] c' Hin Hdiag.
  rewrite Forall_forall in Hlabels, Hpreds.
  specialize (Hpreds _ Hin). cbn [snd] in Hpreds.
  destruct (getitem labels idx) as [y|] eqn:Ey; cbn [bindR]; [|discriminate].
  apply getitem_In, Hlabels in Ey.
  destruct (Z.eqb_spec pred y) as [->|Hne]; cbn [negb]; [now intros [= <-]|].
  intros Hu r x.
  apply mupdate_inv in Hu as (i & j & row & w & Hi & Hj & Hrow & Hw & ->).
  apply norm_index_nonneg in Hi as [-> _]; [|assumption].
  apply norm_index_nonneg in Hj as [-> _]; [|assumption].
  rewrite weight_set by (try assumption; apply nth_error_Some; congruence).
  destruct (Nat.eqb_spec r (Z.to_nat y)), (Nat.eqb_spec r (Z.to_nat pred));
    cbn [andb]; try apply Hdiag. lia.
Qed.

Lemma confusion_counts_inv (self self' : Kernel_perceptron) (conf : matrix)
    (counts : list Z) :
  confusion_counts self = (Ok (conf, counts), self') ->
  self' = self
  /\ counts = snd (np_unique_counts (labels (test_set self)))
  /\ 0 <= nclasses self
  /\ n_cols conf = Z.to_nat (nclasses self)
  /\ n_rows conf = Z.to_nat (nclasses self)
  /\ (ova_rows self ->
      Forall (fun y => 0 <= y) (labels (test_set self)) ->
      forall r x, weight conf r r = Some x -> x = 0%float).
Proof.
  intros H.
  assert (Hself : self' = self).
  { pose proof (readonly_confusion_matrix self) as Hro.
    unfold confusion_matrix, bind in Hro. rewrite H in Hro.
    cbn [snd] in Hro. unfold lift in Hro. cbn [snd] in Hro. now symmetry. }
  split; [exact Hself|]. clear Hself.
  unfold confusion_counts, bind, get_self, lift, ret in H.
  destruct (np_unique_counts (labels (test_set self))) as [uniq cnts] eqn:Eu.
  cbn [snd]. unfold np_zeros in H.
  destruct ((nclasses self <? 0) || (nclasses self <? 0)) eqn:Eneg; [discriminate|].
  destruct (predict (data (test_set self)) self) as [[predictions|] self1] eqn:Ep;
    [|discriminate].
  destruct (iterate predictions) as [preds|] eqn:Ei; [|discriminate].
  destruct (foldR _ preds _) as [conf'|] eqn:Ef; [|discriminate].
  injection H as <- <- _.
  destruct (wf_zeros (Z.to_nat (nclasses self)) (Z.to_nat (nclasses self))) as [_ Hr0].
  destruct (confusion_loop _ _ (Z.to_nat (nclasses self)) _ _ Ef eq_refl Hr0)
    as (Hc & Hr & Hdiag).
  split; [reflexivity|]. split; [lia|]. split; [exact Hc|]. split; [exact Hr|].
  intros Hrows Hlabels. apply Hdiag; [assumption| |intros r x; apply weight_zeros].
  destruct predictions as [p|]; [|discriminate]. injection Ei as <-.
  destruct (predict_labels_if_returned self self1 _ p Hrows Ep) as [_ Hall].
  rewrite Forall_forall in *. intros [idx pred] Hq. cbn [snd].
  unfold enumerate in Hq. apply in_combine_r in Hq. apply Hall in Hq. lia.
Qed.





(** [confusion_matrix] needs every class among the test labels: when the
    number of distinct test labels is neither [nclasses] nor 1, and
    [nclasses] is not 1, the final division cannot broadcast, so the
    method never returns a matrix, and it raises [ValueError] whenever
    the counting before the division went through. *)
Theorem confusion_matrix_needs_every_class (self : Kernel_perceptron)
    (Hu : Z.of_nat (length (snd (np_unique_counts (labels (test_set self)))))
          <> nclasses self)
    (H1 : length (snd (np_unique_counts (labels (test_set self)))) <> 1%nat)
    (Hk : nclasses self <> 1) :
  (forall M, fst (confusion_matrix self) <> Ok M)
  /\ (forall cc self',
         confusion_counts self = (Ok cc, self') ->
         confusion_matrix self = (Raise ValueError, self)).
Proof.
  assert (Hraise : forall conf counts self',
             confusion_counts self = (Ok (conf, counts), self') ->
             confusion_matrix self = (Raise ValueError, self)).
  { intros conf counts self' Ec.
    destruct (confusion_counts_inv _ _ _ _ Ec) as (-> & -> & Hk0 & Hc & _).
    unfold confusion_matrix, bind. rewrite Ec. unfold lift, np_divide.
    rewrite length_map, Hc.
    destruct (Nat.eqb_spec (Z.to_nat (nclasses self))
                (length (snd (np_unique_counts (labels (test_set self)))))); [lia|].
    destruct (Nat.eqb_spec
                (length (snd (np_unique_counts (labels (test_set self))))) 1);
      [contradiction|].
    destruct (Nat.eqb_spec (Z.to_nat (nclasses self)) 1); [lia|]. reflexivity. }
  split.
  - intros M HM.
    destruct (confusion_counts self) as [[[conf counts]|e] self1] eqn:Ec.
    + rewrite (Hraise _ _ _ eq_refl) in HM. discriminate.
    + unfold confusion_matrix, bind in HM. rewrite Ec in HM. discriminate.
  - intros [conf counts] self'. apply Hraise.
Qed.

Lemma confusion_matrix_needs_every_class_witness :
  length (snd (np_unique_counts (labels (test_set Example.ovo_trained)))) = 2%nat
  /\ nclasses Example.ovo_trained = 3
  /\ confusion_matrix Example.ovo_trained = (Raise ValueError, Example.ovo_trained).
Proof.
  split; [reflexivity|]. split; [reflexivity|].
  destruct (confusion_matrix_needs_every_class Example.ovo_trained) as [_ Hraise].
  - change (Z.of_nat 2 <> 3). lia.
  - change (2%nat <> 1%nat). discriminate.
  - change (3 <> 1). lia.
  - apply (Hraise (Matrix 3 [[0; 1; 2]; [0; 0; 0]; [0; 0; 0]]%float, [3; 1])
                  Example.ovo_trained).
    vm_compute. reflexivity.
Defined.

(** [count_mistake_vec] returns one entry per row of the kernel matrix,
    and an entry other than [0.0] only at a position that a test index
    refers to; it leaves the object unchanged. *)
Theorem count_mistake_vec_support (self self' : Kernel_perceptron) (v : vec)
    (Hv : count_mistake_vec self = (Ok v, self')) :
  self' = self
  /\ length v = n_rows (kernel_mtx self)
  /\ supported_by (test_indices self) v.
Proof.
  split.
  { pose proof (readonly_count_mistake_vec self) as Hro.
    rewrite Hv in Hro. now symmetry. }
  unfold count_mistake_vec, bind, get_self, lift in Hv.
  destruct (predict (data (test_set self)) self) as [[predictions|] self1]; [|discriminate].
  destruct (iterate predictions) as [preds|]; [|discriminate].
  destruct (foldR _ preds _) as [v'|] eqn:Ef; [|discriminate].
  injection Hv as <- _.
  eapply (foldR_invariant _
            (fun mv => length mv = n_rows (kernel_mtx self)
                       /\ supported_by (test_indices self) mv));
    [| |exact Ef].
  - intros mv [idx pred] mv' _ [Hlen Hsup].
    destruct (getitem (labels (test_set self)) idx) as [y|]; cbn [bindR]; [|discriminate].
    destruct (negb (pred =? y)); [|now intros [= <-]].
    destruct (getitem (test_indices self) idx) as [t|] eqn:Et; cbn [bindR]; [|discriminate].
    apply getitem_In in Et.
    unfold vupdate.
    destruct (norm_index (length mv) t) as [k|] eqn:Ek; cbn [bindR]; [|discriminate].
    destruct (nth_error mv k) as [x0|]; [|discriminate].
    intros [= <-]. split; [now rewrite length_set_nth|].
    intros j x Hj Hx. rewrite length_set_nth.
    destruct (Nat.eq_dec k j) as [<-|Hne].
    + now exists t.
    + rewrite nth_error_set_nth_neq in Hj by assumption. now apply (Hsup j x).
  - split; [apply repeat_length|].
    intros j x Hj Hx. apply nth_error_In, repeat_spec in Hj. contradiction.
Qed.

Lemma count_mistake_vec_support_witness :
  count_mistake_vec Example.ova_trained
  = (Ok [0; 1; 0; 0; 0]%float, Example.ova_trained)
  /\ length [0; 1; 0; 0; 0]%float = n_rows (kernel_mtx Example.ova_trained)
  /\ supported_by (test_indices Example.ova_trained) [0; 1; 0; 0; 0]%float.
Proof.
  assert (Hv : count_mistake_vec Example.ova_trained
               = (Ok [0; 1; 0; 0; 0]%float, Example.ova_trained))
    by (vm_compute; reflexivity).
  split; [exact Hv|].
  exact (proj2 (count_mistake_vec_support Example.ova_trained Example.ova_trained
                  [0; 1; 0; 0; 0]%float Hv)).
Defined.

Lemma take_block_no_columns (A : matrix) (rows : list Z) :
  take_block A rows [] = Ok (Matrix 0 (map (fun _ => []) rows)).
Proof.
  unfold take_block.
  assert (H : mapR (fun r => mapR (fun c => mget A r c) []) rows
              = Ok (map (fun _ => []) rows)).
  { induction rows as [|r rows IH]; [reflexivity|].
    cbn [mapR map bindR] in *. rewrite IH. reflexivity. }
  rewrite H. reflexivity.
Qed.

(** With no held-out point (no test index, no label, size 0) [predict]
    returns an empty array and [test_error] divides a NumPy zero by zero:
    it returns NaN instead of raising, and changes nothing. *)
Theorem test_error_empty_test_set (self : Kernel_perceptron) (W : matrix)
    (Hte : test_indices self = [])
    (Hlabels : labels (test_set self) = [])
    (Hsize : size (test_set self) = 0)
    (HW : classifier self = Some W)
    (Hcols : n_cols W = length (train_indices self))
    (Hmode : (classification_method self = "OvA"%string /\ m_rows W <> [])
             \/ classification_method self = "OvO"%string) :
  predict (data (test_set self)) self = (Ok (Decisions []), self)
  /\ test_error self = (Ok nan, self).
Proof.
  assert (Hp : predict (data (test_set self)) self = (Ok (Decisions []), self)).
  { unfold predict, bind, get_self, lift, ret.
    rewrite Hte, take_block_no_columns, HW. cbn [attr].
    unfold np_dot_mm, n_rows. cbn [m_rows n_cols].
    rewrite length_map, Hcols, Nat.eqb_refl.
    destruct Hmode as [[-> Hne] | ->]; cbn [String.eqb Ascii.eqb Bool.eqb].
    - unfold np_argmax_axis0. cbn [m_rows n_cols seq mapR].
      destruct (m_rows W); [congruence | reflexivity].
    - reflexivity. }
  split; [exact Hp|].
  unfold test_error, bind, get_self, lift, ret. rewrite Hp, Hlabels, Hsize.
  reflexivity.
Qed.

Lemma test_error_empty_test_set_witness :
  test_indices Edge.no_test = []
  /\ size (test_set Edge.no_test) = 0
  /\ predict [] Edge.no_test = (Ok (Decisions []), Edge.no_test)
  /\ test_error Edge.no_test = (Ok nan, Edge.no_test).
Proof.
  split; [reflexivity|]. split; [reflexivity|].
  apply (test_error_empty_test_set Edge.no_test (zeros 2 1));
    try reflexivity.
  left. split; [reflexivity | discriminate].
Defined.

(** ** Mistake-driven updates *)

(** Splits a run of a loop body into its branches, one test of the source
    at a time, and closes the branches that either changed nothing or
    counted a mistake. *)
Ltac split_run H :=
  repeat (match type of H with
          | context [getitem ?l ?i] => destruct (getitem l i)
          | context [(0 <? ?x)%float] => destruct (0 <? x)%float
          | context [(?x <=? 0)%float] => destruct (x <=? 0)%float
          | context [Z.eqb ?a ?b] => destruct (Z.eqb a b)
          | context [classifier ?s] => destruct (classifier s)
          | context [mupdate ?W ?r ?c ?f] => destruct (mupdate W r c f)
          end;
          cbn [negb attr bindR fst snd] in H; cbv beta iota in H);
  try discriminate;
  try (injection H as <- <-);
  first [left; split; reflexivity | right; lia].

Lemma ova_class_progress (confidence : vec) (data_idx m c m' : Z)
    (self self' : Kernel_perceptron) :
  ova_class confidence data_idx m c self = (Ok m', self') ->
  (m' = m /\ self' = self) \/ m < m'.
Proof.
  intros H.
  unfold ova_class, bind, get_self, lift, ret, count_mistake, classifier_update in H.
  cbn [classifier with_triggered with_classifier dataset] in H. cbv beta iota in H.
  split_run H.
Qed.

Lemma ovo_pair_progress (confidence : vec) (data_idx m m' : Z) (p : Z * (Z * Z))
    (self self' : Kernel_perceptron) :
  ovo_pair confidence data_idx m p self = (Ok m', self') ->
  (m' = m /\ self' = self) \/ m < m'.
Proof.
  intros H. destruct p as [class_idx this_pair].
  unfold ovo_pair, bind, get_self, lift, ret, count_mistake, classifier_update in H.
  cbn [classifier with_triggered with_classifier dataset] in H. cbv beta iota in H.
  split_run H.
Qed.

Lemma for_each_progress {A} (body : Z -> A -> M Z) (l : list A) :
  (forall m a self m' self',
      body m a self = (Ok m', self') -> (m' = m /\ self' = self) \/ m < m') ->
  forall m self m' self',
    for_each body l m self = (Ok m', self') ->
    (m' = m /\ self' = self) \/ m < m'.
Proof.
  intros Hbody. induction l as [|a l IH]; intros m self m' self' H; cbn [for_each] in H.
  - injection H as <- <-. now left.
  - unfold bind in H. destruct (body m a self) as [[m1|] self1] eqn:E1; [|discriminate].
    apply Hbody in E1. apply IH in H.
    destruct E1 as [[-> ->]|E1]; [exact H|].
    right. destruct H as [[-> _]|H]; lia.
Qed.

Lemma train_example_progress (K : matrix) (m m' : Z) (p : Z * vec)
    (self self' : Kernel_perceptron) :
  train_example K m p self = (Ok m', self') ->
  (m' = m /\ self' = self) \/ m < m'.
Proof.
  intros H. destruct p as [data_idx data_point].
  unfold train_example, bind, get_self, lift, ret in H.
  destruct (attr (classifier self)) as [W|]; [|discriminate].
  destruct (getitem (m_rows K) data_idx) as [k|]; [|discriminate].
  destruct (np_dot_mv W k) as [confidence|]; [|discriminate].
  destruct (String.eqb (classification_method self) "OvA").
  - revert H. apply for_each_progress. intros ? ? ? ? ?. apply ova_class_progress.
  - destruct (String.eqb (classification_method self) "OvO").
    + destruct (attr (OvO_indices self)) as [pairs|]; [|discriminate].
      revert H. apply for_each_progress. intros ? ? ? ? ?. apply ovo_pair_progress.
    + injection H as <- <-. now left.
Qed.

(** The update is mistake-driven.  Processing one training example
    never lowers the mistake counter, and leaves the whole object as it
    was unless it raised the counter; so an online pass over the training
    set that ends with the counter it started from has changed nothing: a
    classifier that makes no mistake in an epoch is a fixed point of that
    epoch. *)
Theorem no_mistake_no_change (K : matrix) (self : Kernel_perceptron) :
  (forall m p m' self',
      train_example K m p self = (Ok m', self') ->
      m <= m' /\ (m' = m -> self' = self))
  /\ (forall examples m m' self',
         for_each (train_example K) examples m self = (Ok m', self') ->
         m <= m' /\ (m' = m -> self' = self)).
Proof.
  split.
  - intros m p m' self' H. apply train_example_progress in H.
    destruct H as [[-> ->]|H]; split; try lia; auto; lia.
  - intros examples m m' self' H.
    apply (for_each_progress (train_example K)) in H.
    + destruct H as [[-> ->]|H]; split; try lia; auto; lia.
    + intros ? ? ? ? ?. apply train_example_progress.
Qed.

Lemma no_mistake_no_change_witness :
  for_each (train_example (Matrix 1 [[1%float]]))
           (enumerate (data (dataset Example.ova_trained))) 0 Example.ova_trained
  = (Ok 0, Example.ova_trained)
  /\ 0 <= 0
  /\ (0 = 0 -> Example.ova_trained = Example.ova_trained).
Proof.
  assert (Hrun : for_each (train_example (Matrix 1 [[1%float]]))
                          (enumerate (data (dataset Example.ova_trained))) 0
                          Example.ova_trained
                 = (Ok 0, Example.ova_trained)) by (vm_compute; reflexivity).
  split; [exact Hrun|].
  exact (proj2 (no_mistake_no_change (Matrix 1 [[1%float]]) Example.ova_trained)
               _ 0 0 Example.ova_trained Hrun).
Defined.
